(** * research_server.py: metadata stores, resolver and text extraction

    A shallow embedding of the three tools of [research_server.py]
    ([search_papers], [extract_info], [extract_text_paper]) together with
    the parts of the Python runtime they rest on: strings, [os.path],
    a file system, JSON values and exceptions.

    Conventions of the model.
    - A Python [str] is a Rocq [string].  [Str.lower] is [str.lower] on
      strings of ASCII characters; statements that depend on what
      lowering does to a letter are made for such strings.
    - Paths are compared as they are written: the model does not identify
      different spellings of one location ([a//b], [a/./b], a trailing
      separator) and has no symbolic links.
    - A regular file is represented by what its readers make of it:
      whether its bytes are text at all, the value [json.load] decodes,
      the pages [PyPDF2.PdfReader] finds or the exception it raises.
    - Python statements run in the monad [py]: a state (the file system and
      what was printed) and an outcome that is a value or a raised
      exception. *)

From Stdlib Require Import Ascii String.
From stdpp Require Import gmap strings list fin_maps pretty.

(** ** Python strings *)

Module Str.

Fixpoint map (f : ascii → ascii) (s : string) : string :=
  match s with
  | EmptyString => EmptyString
  | String c s' => String (f c) (map f s')
  end.

Definition is_upper (c : ascii) : bool :=
  (65 <=? nat_of_ascii c)%nat && (nat_of_ascii c <=? 90)%nat.

Definition lower_char (c : ascii) : ascii :=
  if is_upper c then ascii_of_nat (nat_of_ascii c + 32) else c.

(** [s.lower()] *)
Definition lower (s : string) : string := map lower_char s.

(** [s.replace(old, new)] for one-character [old] and [new] *)
Definition replace (old new : ascii) (s : string) : string :=
  map (λ c, if Ascii.eqb c old then new else c) s.

(** [s.isascii()]: every character is below 128 *)
Definition isascii (s : string) : bool :=
  forallb (λ c, (nat_of_ascii c <? 128)%nat) (list_ascii_of_string s).

(** [str.isspace] on one ASCII character *)
Definition isspace (c : ascii) : bool :=
  let n := nat_of_ascii c in
  (n =? 32)%nat || ((9 <=? n)%nat && (n <=? 13)%nat)
  || ((28 <=? n)%nat && (n <=? 31)%nat).

Fixpoint chars (s : string) : list ascii :=
  match s with
  | EmptyString => []
  | String c s' => c :: chars s'
  end.

(** [s.startswith(t)] *)
Fixpoint startswith (s t : string) : bool :=
  match t, s with
  | EmptyString, _ => true
  | String _ _, EmptyString => false
  | String b t', String a s' => Ascii.eqb a b && startswith s' t'
  end.

(** [s.endswith(c)] for one character *)
Fixpoint endswith (s : string) (c : ascii) : bool :=
  match s with
  | EmptyString => false
  | String a EmptyString => Ascii.eqb a c
  | String _ s' => endswith s' c
  end.

(** [t in s] on strings: [t] occurs in [s] as a substring *)
Fixpoint contains (s t : string) : bool :=
  startswith s t ||
  match s with
  | EmptyString => false
  | String _ s' => contains s' t
  end.

(** The rest of [s] after the prefix [t], when [s] starts with [t]. *)
Fixpoint strip_prefix (t s : string) : option string :=
  match t, s with
  | EmptyString, _ => Some s
  | String _ _, EmptyString => None
  | String b t', String a s' =>
      if Ascii.eqb a b then strip_prefix t' s' else None
  end.

(** [s.rfind(c)] for one character, with [None] for Python's [-1] *)
Fixpoint rfind (s : string) (c : ascii) : option nat :=
  match s with
  | EmptyString => None
  | String a s' =>
      match rfind s' c with
      | Some i => Some (S i)
      | None => if Ascii.eqb a c then Some 0 else None
      end
  end.

(** [s[:n]] and [s[n:]] *)
Fixpoint take (n : nat) (s : string) : string :=
  match n, s with
  | S n', String a s' => String a (take n' s')
  | _, _ => EmptyString
  end.

Fixpoint drop (n : nat) (s : string) : string :=
  match n, s with
  | S n', String _ s' => drop n' s'
  | _, _ => s
  end.

(** Decimal rendering with at least [width] digits, as ["%0<width>d"]. *)
Definition zfill (width : nat) (s : string) : string :=
  String.concat EmptyString (replicate (width - String.length s) "0") +:+ s.

End Str.

(** ** os.path *)

Module Path.

Definition sep : ascii := "/"%char.
Definition extsep : ascii := "."%char.

(** [os.path.join(a, b)] *)
Definition join (a b : string) : string :=
  if Str.startswith b "/" then b
  else if (String.eqb a EmptyString || Str.endswith a sep)%bool then a +:+ b
  else a +:+ "/" +:+ b.

(** The loop of [genericpath._splitext] that skips the leading dots of
    the file name: is there a character other than [extsep] in
    [p[filenameIndex:dotIndex]]? *)
Fixpoint has_stem (p : string) (filenameIndex dotIndex : nat) : bool :=
  match dotIndex with
  | 0 => false
  | S d =>
      match filenameIndex with
      | S f =>
          match p with
          | EmptyString => false
          | String _ p' => has_stem p' f d
          end
      | 0 =>
          match p with
          | EmptyString => false
          | String a p' =>
              if Ascii.eqb a extsep then has_stem p' 0 d else true
          end
      end
  end.

(** [os.path.splitext(p)] *)
Definition splitext (p : string) : string * string :=
  match Str.rfind p extsep with
  | None => (p, EmptyString)
  | Some dotIndex =>
      let filenameIndex :=
        match Str.rfind p sep with Some i => S i | None => 0 end in
      if (filenameIndex <=? dotIndex)%nat && has_stem p filenameIndex dotIndex
      then (Str.take dotIndex p, Str.drop dotIndex p)
      else (p, EmptyString)
  end.

(** The proper prefixes of [p] that end just before a separator, the
    shortest first: the directories above [p]. *)
Fixpoint ancestors (p : string) : list string :=
  match p with
  | EmptyString => []
  | String a p' =>
      (if Ascii.eqb a sep then [EmptyString] else []) ++ (String a <$> ancestors p')
  end.

End Path.

(** ** Exceptions and the monad of Python statements *)

(** The exception classes the program can meet.  The last three are what
    the arXiv client raises when the service errs or cannot be reached. *)
Inductive exn :=
| FileNotFoundError
| IsADirectoryError
| NotADirectoryError
| FileExistsError
| JSONDecodeError
| UnicodeDecodeError
| TypeError
| KeyError
| IndexError
| PdfReadError
| HTTPError
| UnexpectedEmptyPageError
| ConnectionError.

Global Instance exn_eq_dec : EqDecision exn.
Proof. solve_decision. Defined.

(** ** JSON values and Python dictionaries *)

#[local] Set Warnings "-register-all".
Inductive json :=
| JNull
| JBool (b : bool)
| JNumber (literal : string)
| JString (s : string)
| JArray (items : list json)
| JObject (members : list (string * json)).
#[local] Set Warnings "register-all".

(** A [dict] with string keys keeps its keys in insertion order: an
    association list in which [set] replaces in place or appends.  A
    [dict] holds no key twice; nothing below depends on it. *)
Module Dict.
Section Dict.
Context {V : Type}.

Fixpoint get (d : list (string * V)) (k : string) : option V :=
  match d with
  | [] => None
  | (k', v) :: d' => if String.eqb k' k then Some v else get d' k
  end.

Fixpoint set (d : list (string * V)) (k : string) (v : V) : list (string * V) :=
  match d with
  | [] => [(k, v)]
  | (k', v') :: d' =>
      if String.eqb k' k then (k', v) :: d' else (k', v') :: set d' k v
  end.

Definition mem (d : list (string * V)) (k : string) : bool :=
  match get d k with Some _ => true | None => false end.
End Dict.
End Dict.

(** ** The file system and the printed output *)

(** A page of a document: the text [extract_text] returns for it, or the
    exception it raises on a page PyPDF2 cannot read. *)
Inductive page :=
| PageText (text : string)
| PageDamaged (e : exn).

(** The data of a regular file.
    - [Json value]: text that [json.load] decodes to [value];
    - [Text text]: text that is neither JSON nor a document;
    - [Pdf decodes pages]: a document PyPDF2 opens, with its pages;
    - [Other decodes e]: any other file; [e] is what PyPDF2 raises when
      it opens the file or counts its pages.
    [decodes] tells whether the bytes of the file are text in the
    encoding of [open(p, "r")]; when they are not, reading the file as
    text raises [UnicodeDecodeError]. *)
Inductive content :=
| Json (value : json)
| Pdf (decodes : bool) (pages : list page)
| Text (text : string)
| Other (decodes : bool) (e : exn).

Inductive node :=
| File (data : content)
| Dir.

(** What the tools print, one constructor per [print] of the source. *)
Inductive line :=
| ResultsSavedIn (file_path : string)
| ErrorReading (file_path : string) (e : exn)
| FileDoesNotExist (paper_path : string)
| ExtractingText (paper_path : string) (total_pages : nat)
| ExtractionComplete (output_path : string)
| NotAValidPdf (paper_path : string).

Record world := World {
  files : gmap string node;
  stdout : list line
}.

Inductive outcome (A : Type) :=
| Return (a : A)
| Raise (e : exn).
Global Arguments Return {A} a.
Global Arguments Raise {A} e.

Definition py (A : Type) : Type := world → outcome A * world.

Global Instance py_ret : MRet py := λ A a w, (Return a, w).

Global Instance py_bind : MBind py := λ A B f m w,
  match m w with
  | (Return a, w') => f a w'
  | (Raise e, w') => (Raise e, w')
  end.

Definition raise {A} (e : exn) : py A := λ w, (Raise e, w).

(** [try: body except classes as e: handler e] *)
Definition try_except {A} (body : py A) (classes : list exn)
    (handler : exn → py A) : py A := λ w,
  match body w with
  | (Return a, w') => (Return a, w')
  | (Raise e, w') =>
      if bool_decide (e ∈ classes) then handler e w' else (Raise e, w')
  end.

Definition print (l : line) : py unit := λ w,
  (Return (), World (files w) (stdout w ++ [l])).

Module os.

Definition is_dir (fs : gmap string node) (p : string) : bool :=
  match fs !! p with Some Dir => true | _ => false end.

Definition is_file (fs : gmap string node) (p : string) : bool :=
  match fs !! p with Some (File _) => true | _ => false end.

(** [os.path.isdir(p)], [os.path.isfile(p)] *)
Definition isdir (p : string) : py bool := λ w, (Return (is_dir (files w) p), w).
Definition isfile (p : string) : py bool := λ w, (Return (is_file (files w) p), w).

(** The name under which the entry at path [k] appears in directory [d].
    The names [.] and [..] are never listed. *)
Definition child_name (d k : string) : option string :=
  match Str.strip_prefix (d +:+ "/") k with
  | Some rest =>
      if negb (String.eqb rest EmptyString) && negb (Str.contains rest "/")
         && negb (String.eqb rest ".") && negb (String.eqb rest "..")
      then Some rest else None
  | None => None
  end.

(** [os.listdir(d)]; the order is that of the table of files. *)
Definition listdir (d : string) : py (list string) := λ w,
  match files w !! d with
  | Some Dir => (Return (omap (child_name d) (map_to_list (files w)).*1), w)
  | Some (File _) => (Raise NotADirectoryError, w)
  | None => (Raise FileNotFoundError, w)
  end.

(** The directories [os.makedirs(name)] needs: those above [name], then
    [name] itself. *)
Definition makedirs_targets (name : string) : list string :=
  filter (λ q, q ≠ EmptyString) (Path.ancestors name) ++ [name].

(** [os.makedirs(name, exist_ok=True)]: nothing to do when [name] is a
    directory already; an error when a regular file is in the way. *)
Definition makedirs (name : string) : py unit := λ w,
  if is_dir (files w) name then (Return (), w)
  else
    match List.find (is_file (files w)) (makedirs_targets name) with
    | Some q =>
        (Raise (if String.eqb q name then FileExistsError else NotADirectoryError), w)
    | None =>
        (Return (),
         World (foldr (λ q fs, <[q:=Dir]> fs) (files w) (makedirs_targets name))
               (stdout w))
    end.

End os.

(** [with open(p, "r") as f], [with open(p, "rb") as f]: the file's data *)
Definition open_read (p : string) : py content := λ w,
  match files w !! p with
  | Some (File data) => (Return data, w)
  | Some Dir => (Raise IsADirectoryError, w)
  | None => (Raise FileNotFoundError, w)
  end.

(** [with open(p, "w") as f:] followed by one write of [data] *)
Definition open_write (p : string) (data : content) : py unit := λ w,
  match files w !! p with
  | Some Dir => (Raise IsADirectoryError, w)
  | _ => (Return (), World (<[p:=File data]> (files w)) (stdout w))
  end.

Module json_lib.

(** [json.load(f)] on the data of an open file: [f.read()] decodes the
    bytes, then the text is parsed. *)
Definition load (data : content) : py json :=
  match data with
  | Json value => mret value
  | Text _ => raise JSONDecodeError
  | Pdf decodes _ | Other decodes _ =>
      raise (if decodes then JSONDecodeError else UnicodeDecodeError)
  end.

(** [json.dump(value, f, indent=2)] into the file at [p] opened for writing *)
Definition dump (value : json) (p : string) : py unit :=
  open_write p (Json value).

End json_lib.

(** [obj[key] = value] *)
Definition setitem (obj : json) (key : string) (value : json) : py json :=
  match obj with
  | JObject members => mret (JObject (Dict.set members key value))
  | _ => raise TypeError
  end.

(** [key in obj] for a string [key] *)
Definition contains (obj : json) (key : string) : py bool :=
  match obj with
  | JObject members => mret (Dict.mem members key)
  | JArray items =>
      mret (existsb (λ x, match x with JString s => String.eqb s key | _ => false end) items)
  | JString s => mret (Str.contains s key)
  | _ => raise TypeError
  end.

(** [obj[key]] for a string [key] *)
Definition getitem (obj : json) (key : string) : py json :=
  match obj with
  | JObject members =>
      match Dict.get members key with
      | Some value => mret value
      | None => raise KeyError
      end
  | _ => raise TypeError
  end.

(** ** The arXiv client *)

Module arxiv.

Record datetime := Datetime {
  year : nat; month : nat; day : nat;
  hour : nat; minute : nat; second : nat
}.

(** [str(d.date())]: the time of day is dropped *)
Definition date_str (d : datetime) : string :=
  Str.zfill 4 (pretty (year d)) +:+ "-" +:+ Str.zfill 2 (pretty (month d))
  +:+ "-" +:+ Str.zfill 2 (pretty (day d)).

Record Author := { name : string }.

(** One hit.  [get_short_id] stands for the result of the method of
    that name; [pdf_url] is [None] for an entry without a PDF link. *)
Record Result := {
  get_short_id : string;
  title : string;
  authors : list Author;
  summary : string;
  pdf_url : option string;
  published : datetime
}.

(** What iterating over [client.results(search)] does.  The call itself
    only builds a generator; the service is asked when the loop wants the
    next hit, and the generator then yields a hit, ends, or raises. *)
Inductive results :=
| Exhausted
| Yield (paper : Result) (rest : results)
| Failed (e : exn).

(** The hits a stream yields before it ends or fails. *)
Fixpoint yielded (papers : results) : list Result :=
  match papers with
  | Yield paper rest => paper :: yielded rest
  | _ => []
  end.

Fixpoint failure (papers : results) : option exn :=
  match papers with
  | Exhausted => None
  | Yield _ rest => failure rest
  | Failed e => Some e
  end.

Fixpoint of_list (hits : list Result) : results :=
  match hits with
  | [] => Exhausted
  | paper :: rest => Yield paper (of_list rest)
  end.

End arxiv.

(** ** The tools *)

Definition PAPER_DIR : string := "papers".

(** The directory of a topic, line 40. *)
Definition topic_dir (topic : string) : string :=
  Str.replace " " "_" (Str.lower topic).

Definition topic_path (topic : string) : string :=
  Path.join PAPER_DIR (topic_dir topic).

Definition store_path (topic : string) : string :=
  Path.join (topic_path topic) "papers_info.json".

(** The dictionary built for one hit, lines 56-62. *)
Definition paper_info (paper : arxiv.Result) : json :=
  JObject
    [ ("title", JString (arxiv.title paper));
      ("authors", JArray ((λ author, JString (arxiv.name author)) <$> arxiv.authors paper));
      ("summary", JString (arxiv.summary paper));
      ("pdf_url", match arxiv.pdf_url paper with Some u => JString u | None => JNull end);
      ("published", JString (arxiv.date_str (arxiv.published paper))) ].

(** Lines 46-50: the stored mapping, or an empty one. *)
Definition load_papers_info (file_path : string) : py json :=
  try_except
    (data ← open_read file_path; json_lib.load data)
    [FileNotFoundError; JSONDecodeError]
    (λ _, mret (JObject [])).

(** The loop of lines 54-63. *)
Fixpoint process_papers (papers : arxiv.results) (paper_ids : list string)
    (papers_info : json) : py (list string * json) :=
  match papers with
  | arxiv.Exhausted => mret (paper_ids, papers_info)
  | arxiv.Failed e => raise e
  | arxiv.Yield paper rest =>
      let paper_ids := paper_ids ++ [arxiv.get_short_id paper] in
      papers_info ← setitem papers_info (arxiv.get_short_id paper) (paper_info paper);
      process_papers rest paper_ids papers_info
  end.

Section Tools.

(** [client.results(arxiv.Search(query, max_results, Relevance))]: the
    stream the service answers with. *)
Variable client_results : string → Z → arxiv.results.

Definition search_papers (topic : string) (max_results : Z) : py (list string) :=
  let papers := client_results topic max_results in
  let path := Path.join PAPER_DIR (Str.replace " " "_" (Str.lower topic)) in
  os.makedirs path;;
  let file_path := Path.join path "papers_info.json" in
  papers_info ← load_papers_info file_path;
  '(paper_ids, papers_info) ← process_papers papers [] papers_info;
  json_lib.dump papers_info file_path;;
  print (ResultsSavedIn file_path);;
  mret paper_ids.

End Tools.

(** What [extract_info] returns: the record rendered by [json.dumps], or
    the sentence saying that nothing is stored. *)
Inductive info :=
| Dumps (record : json)
| Message (text : string).

Definition no_saved_information (paper_id : string) : string :=
  "There's no saved information related to paper " +:+ paper_id +:+ ".".

(** The loop of lines 85-97 over the entries of [PAPER_DIR]. *)
Fixpoint scan_items (paper_id : string) (items : list string) : py info :=
  match items with
  | [] => mret (Message (no_saved_information paper_id))
  | item :: rest =>
      let item_path := Path.join PAPER_DIR item in
      is_d ← os.isdir item_path;
      if is_d : bool then
        let file_path := Path.join item_path "papers_info.json" in
        is_f ← os.isfile file_path;
        if is_f : bool then
          found ← try_except
            (data ← open_read file_path;
             papers_info ← json_lib.load data;
             has ← contains papers_info paper_id;
             if has : bool then
               record ← getitem papers_info paper_id;
               mret (Some record)
             else mret None)
            [JSONDecodeError; FileNotFoundError]
            (λ e, print (ErrorReading file_path e);; mret None);
          match found with
          | Some record => mret (Dumps record)
          | None => scan_items paper_id rest
          end
        else scan_items paper_id rest
      else scan_items paper_id rest
  end.

Definition extract_info (paper_id : string) : py info :=
  items ← os.listdir PAPER_DIR;
  scan_items paper_id items.

(** [PyPDF2.PdfReader(file)] and [len(reader.pages)], lines 122-123, on
    the data of the opened file.  In JSON and in [Text] PyPDF2 finds no
    document and raises [PdfReadError]; on any other file that it does
    not open it raises the exception the file comes with. *)
Definition PdfReader (data : content) : py (list page) :=
  match data with
  | Pdf _ pages => mret pages
  | Other _ e => raise e
  | Json _ | Text _ => raise PdfReadError
  end.

(** [page.extract_text()] *)
Definition extract_text (p : page) : py string :=
  match p with
  | PageText text => mret text
  | PageDamaged e => raise e
  end.

(** The literal ["\n\n"] *)
Definition newlines : string := String "010" (String "010" EmptyString).

(** The loop of lines 128-138 over [range(total_pages)]. *)
Fixpoint extract_pages (pages : list page) (page_nums : list nat)
    (total_text : string) : py string :=
  match page_nums with
  | [] => mret total_text
  | page_num :: rest =>
      p ← match pages !! page_num with
          | Some p => mret p
          | None => raise IndexError
          end;
      page_text ← extract_text p;
      extract_pages pages rest
        (if String.eqb page_text EmptyString then total_text
         else total_text +:+ (page_text +:+ newlines))
  end.

Definition extract_text_paper (paper_path : string) : py (option string) :=
  try_except
    (exists_ ← os.isfile paper_path;
     if negb exists_ then
       print (FileDoesNotExist paper_path);;
       mret None
     else
       data ← open_read paper_path;
       pages ← PdfReader data;
       let total_pages := length pages in
       print (ExtractingText paper_path total_pages);;
       total_text ← extract_pages pages (seq 0 total_pages) EmptyString;
       let output_path := (Path.splitext paper_path).1 +:+ ".txt" in
       open_write output_path (Text total_text);;
       print (ExtractionComplete output_path);;
       mret (Some output_path))
    [PdfReadError]
    (λ _, print (NotAValidPdf paper_path);; mret None).

(** ** Sample data *)

Module Sample.

Definition tab : ascii := "009"%char.

(** ["deep\tlearning"] *)
Definition tab_topic : string := "deep" +:+ String tab "learning".

Definition noon : arxiv.datetime := arxiv.Datetime 2024 1 5 12 30 0.

Definition paper_a : arxiv.Result := {|
  arxiv.get_short_id := "2401.00001v1";
  arxiv.title := "Attention revisited";
  arxiv.authors := [ {| arxiv.name := "Ada" |}; {| arxiv.name := "Bob" |} ];
  arxiv.summary := "First version.";
  arxiv.pdf_url := Some "http://arxiv.org/pdf/2401.00001v1";
  arxiv.published := noon
|}.

Definition paper_b : arxiv.Result := {|
  arxiv.get_short_id := "2402.00002v1";
  arxiv.title := "Sparse mixtures";
  arxiv.authors := [ {| arxiv.name := "Cy" |} ];
  arxiv.summary := "Another paper.";
  arxiv.pdf_url := None;
  arxiv.published := noon
|}.

(** A second hit with the identifier of [paper_a]. *)
Definition paper_a' : arxiv.Result := {|
  arxiv.get_short_id := "2401.00001v1";
  arxiv.title := "Attention revisited, again";
  arxiv.authors := [ {| arxiv.name := "Ada" |} ];
  arxiv.summary := "Second version.";
  arxiv.pdf_url := Some "http://arxiv.org/pdf/2401.00001v1";
  arxiv.published := noon
|}.

(** A service that answers every search with the same stream. *)
Definition answers (papers : arxiv.results) : string → Z → arxiv.results :=
  λ _ _, papers.

Definition unreachable := answers (arxiv.Failed ConnectionError).
Definition interrupted := answers (arxiv.Yield paper_a (arxiv.Failed HTTPError)).
Definition twice := answers (arxiv.of_list [paper_a; paper_b; paper_a']).

Definition old_record (title : string) : json :=
  JObject [("title", JString title); ("authors", JArray []);
           ("summary", JString EmptyString); ("pdf_url", JNull);
           ("published", JString "2023-12-31")].

Definition stored_members : list (string * json) :=
  [("2401.00001v1", old_record "Attention"); ("2312.99999v2", old_record "Older")].

Definition empty_world : world := World ∅ [].

(** The topic [ml] has been searched before. *)
Definition stored_world : world :=
  World (list_to_map
           [("papers", Dir); ("papers/ml", Dir);
            ("papers/ml/papers_info.json", File (Json (JObject stored_members)))])
        [].


(** A document of three pages next to a directory, a note that is not a
    document, and a document whose second page cannot be read. *)
Definition desk : world :=
  World (list_to_map
           [("docs", Dir);
            ("docs/paper.pdf", File (Pdf false [PageText "Page 1"; PageText "Page 2"; PageText "Page 3"]));
            ("docs/notes.pdf", File (Text "not a document"));
            ("docs/torn.pdf", File (Pdf false [PageText "Page 1"; PageDamaged PdfReadError]))])
        [].




(** A document whose output path is taken by a directory, a scanned
    document whose pages yield no text, and a document that bears the
    extension of its own output. *)
Definition shelf : world :=
  World (list_to_map
           [("docs", Dir);
            ("docs/paper.pdf", File (Pdf false [PageText "Page 1"; PageText "Page 2"]));
            ("docs/paper.txt", Dir);
            ("docs/scan.pdf", File (Pdf false [PageText EmptyString; PageText EmptyString]));
            ("docs/draft.txt", File (Pdf true [PageText "Draft"]))])
        [].

End Sample.

(** ** Vocabulary of the statements *)

(** The identifiers of a list of hits, in order. *)
Definition ids (hits : list arxiv.Result) : list string :=
  arxiv.get_short_id <$> hits.

(** The dictionary after the assignments of the loop for [hits]. *)
Definition merge (members : list (string * json)) (hits : list arxiv.Result)
    : list (string * json) :=
  foldl (λ d paper, Dict.set d (arxiv.get_short_id paper) (paper_info paper))
        members hits.

(** The last of [hits] that bears the identifier [paper_id]. *)
Definition last_bearing (paper_id : string) (hits : list arxiv.Result)
    : option arxiv.Result :=
  last (filter (λ paper, arxiv.get_short_id paper = paper_id) hits).

(** A store file the loop can work with: absent, text that is not JSON,
    or a JSON object; not a directory, not JSON of another kind and not
    bytes that are no text. *)
Definition usable_store (fs : gmap string node) (file_path : string) : bool :=
  match fs !! file_path with
  | Some (File (Json (JObject _))) => true
  | Some (File (Json _)) => false
  | Some (File (Text _)) => true
  | Some (File (Pdf decodes _ | Other decodes _)) => decodes
  | Some Dir => false
  | None => true
  end.

(** Where [extract_text_paper] writes, line 141. *)
Definition output_path (paper_path : string) : string :=
  (Path.splitext paper_path).1 +:+ ".txt".

(** What the text of one page adds to the output: nothing, or the text
    and two line feeds. *)
Definition contribution (page_text : string) : string :=
  if String.eqb page_text EmptyString then EmptyString
  else page_text +:+ String "010" (String "010" EmptyString).

Definition contributions (texts : list string) : string :=
  foldr (λ page_text rest, contribution page_text +:+ rest) EmptyString texts.

(** ["Page 1\n\nPage 2\n\n...Page N\n\n"] *)
Fixpoint numbered_pages (N : nat) : string :=
  match N with
  | 0 => EmptyString
  | S n =>
      numbered_pages n
      +:+ ("Page " +:+ pretty (S n) +:+ String "010" (String "010" EmptyString))
  end.

(** The text the loop over the pages ends with, or the exception of the
    first page that cannot be read. *)
Fixpoint text_of_pages (pages : list page) (total_text : string) : outcome string :=
  match pages with
  | [] => Return total_text
  | PageText page_text :: rest =>
      text_of_pages rest
        (if String.eqb page_text EmptyString then total_text
         else total_text +:+ (page_text +:+ newlines))
  | PageDamaged e :: _ => Raise e
  end.

(** A file on which PyPDF2 raises [PdfReadError]: when it opens the file,
    or on the first page that cannot be read. *)
Definition rejected (data : content) : Prop :=
  match data with
  | Json _ | Text _ => True
  | Other _ e => e = PdfReadError
  | Pdf _ pages => text_of_pages pages EmptyString = Raise PdfReadError
  end.

(** The character of the directory name that stands for [c]. *)
Definition slug_char (c : ascii) : ascii :=
  if Ascii.eqb c " " then "_"%char else Str.lower_char c.

(** A store that cannot make [extract_info] stop: text that is not JSON,
    or a JSON object without the key. *)
Definition silent (paper_id : string) (data : content) : Prop :=
  match data with
  | Json (JObject members) => Dict.get members paper_id = None
  | Json _ => False
  | Text _ => True
  | Pdf decodes _ | Other decodes _ => decodes = true
  end.

(** A statement is read-only when it leaves the table of files as it was,
    whatever it returns or raises. *)
Definition read_only {A} (m : py A) : Prop :=
  ∀ w, files (m w).2 = files w.

Create HintDb read_only discriminated.

(** Unfolds the monad and the primitive statements. *)
Ltac py_unfold :=
  unfold mbind, mret, py_bind, py_ret, raise, try_except, print,
    os.isdir, os.isfile, os.listdir, open_read, open_write,
    json_lib.load, json_lib.dump in *.





(** A list without its repetitions, every element where it first was. *)
Fixpoint first_occurrences (l : list string) : list string :=
  match l with
  | [] => []
  | x :: l' => x :: filter (λ y, y ≠ x) (first_occurrences l')
  end.

(** The identifiers of the hits that are not keys of [members], each
    once, in the order in which they first come. *)
Definition new_ids (members : list (string * json)) (hits : list arxiv.Result)
    : list string :=
  first_occurrences (filter (λ k, k ∉ members.*1) (ids hits)).

(** * Properties *)

(** ** The model on small inputs *)

Example lower_example : Str.lower "Quantum Computing" = "quantum computing".
Proof. reflexivity. Qed.

Example topic_dir_example : topic_dir "Quantum Computing" = "quantum_computing".
Proof. reflexivity. Qed.

Example store_path_example :
  store_path "Quantum Computing" = "papers/quantum_computing/papers_info.json".
Proof. reflexivity. Qed.

Example join_absolute : Path.join "papers" "/tmp" = "/tmp".
Proof. reflexivity. Qed.

Example splitext_example :
  Path.splitext "docs/a.b/paper.v2.pdf" = ("docs/a.b/paper.v2", ".pdf").
Proof. reflexivity. Qed.

Example splitext_dotfile : Path.splitext "docs.d/.hidden" = ("docs.d/.hidden", EmptyString).
Proof. reflexivity. Qed.

Example ancestors_example : Path.ancestors "papers/ml/x" = ["papers"; "papers/ml"].
Proof. reflexivity. Qed.

Example date_str_example : arxiv.date_str Sample.noon = "2024-01-05".
Proof. vm_compute. reflexivity. Qed.

Example paper_info_example :
  paper_info Sample.paper_b
  = JObject [("title", JString "Sparse mixtures"); ("authors", JArray [JString "Cy"]);
             ("summary", JString "Another paper."); ("pdf_url", JNull);
             ("published", JString "2024-01-05")].
Proof. vm_compute. reflexivity. Qed.

Example numbered_pages_example :
  numbered_pages 2
  = "Page 1" +:+ String "010" (String "010"
      ("Page 2" +:+ String "010" (String "010" EmptyString))).
Proof. vm_compute. reflexivity. Qed.


(** The record is then found under its identifier alone. *)
Example resolve_after_search :
  (extract_info "2402.00002v1"
     (search_papers Sample.twice "ML" 5 Sample.empty_world).2).1
  = Return (Dumps (paper_info Sample.paper_b)).
Proof. vm_compute. reflexivity. Qed.


(** ** Strings and paths *)

Lemma chars_map f s : Str.chars (Str.map f s) = f <$> Str.chars s.
Proof. induction s as [|c s IH]; simpl; [done | by rewrite IH]. Qed.

Lemma lower_char_space c : Str.lower_char c = " "%char → c = " "%char.
Proof. destruct c as [[] [] [] [] [] [] [] []]; vm_compute; congruence. Qed.

Lemma chars_topic_dir topic :
  Str.chars (topic_dir topic) = slug_char <$> Str.chars topic.
Proof.
  unfold topic_dir, Str.replace, Str.lower. rewrite !chars_map, <- list_fmap_compose.
  apply list_fmap_ext. intros _ c _. unfold slug_char; simpl.
  destruct (Ascii.eqb_spec c " ") as [-> | Hc]; [done |].
  destruct (Ascii.eqb_spec (Str.lower_char c) " ") as [Hl | _]; [| done].
  by apply lower_char_space in Hl.
Qed.

Lemma slug_char_not_space c : slug_char c ≠ " "%char.
Proof.
  unfold slug_char. destruct (Ascii.eqb_spec c " ") as [-> | Hc]; [done |].
  by intros ?%lower_char_space.
Qed.

Lemma slug_char_other_space c :
  Str.isspace c = true → c ≠ " "%char → slug_char c = c.
Proof.
  destruct c as [[] [] [] [] [] [] [] []]; vm_compute; congruence.
Qed.

(** C8, as the code has it: the directory name holds no space character,
    every space having been replaced by an underscore; and for a topic of
    ASCII characters it is the topic, one character for one, with the
    capitals lowered and the spaces as underscores, so that every other
    whitespace character of the topic stays where it was. *)
Theorem topic_dir_replaces_spaces topic :
  (" "%char ∉ Str.chars (topic_dir topic))
  ∧ (Str.isascii topic = true →
     Str.chars (topic_dir topic) = slug_char <$> Str.chars topic
     ∧ (∀ i c, Str.isspace c = true → c ≠ " "%char →
          Str.chars topic !! i = Some c → Str.chars (topic_dir topic) !! i = Some c)).
Proof.
  rewrite chars_topic_dir. split.
  - intros (c & Hc & _)%list_elem_of_fmap. by apply (slug_char_not_space c).
  - intros _. split; [done |].
    intros i c Hs Hne Hi. rewrite list_lookup_fmap, Hi; simpl.
    by rewrite slug_char_other_space.
Qed.

(** C8, as the claim has it, fails: the tab of ["deep\tlearning"] is a
    whitespace character and is still in the directory name. *)
Lemma topic_dir_keeps_tab :
  ¬ (∀ c, Str.isspace c = true → c ∉ Str.chars (topic_dir Sample.tab_topic)).
Proof.
  intros H. apply (H Sample.tab); [done |].
  vm_compute. do 4 apply list_elem_of_further. apply list_elem_of_here.
Qed.

(** ** Statements that only read *)

Lemma read_only_ret {A} (a : A) : read_only (mret a).
Proof. by intros w. Qed.

Lemma read_only_raise {A} e : read_only (@raise A e).
Proof. by intros w. Qed.

Lemma read_only_bind {A B} (m : py A) (f : A → py B) :
  read_only m → (∀ a, read_only (f a)) → read_only (m ≫= f).
Proof.
  intros Hm Hf w. unfold mbind, py_bind. specialize (Hm w).
  destruct (m w) as [[a | e] w1]; simpl in *; [| done].
  by rewrite Hf.
Qed.

Lemma read_only_try {A} (body : py A) classes handler :
  read_only body → (∀ e, read_only (handler e)) →
  read_only (try_except body classes handler).
Proof.
  intros Hb Hh w. unfold try_except. specialize (Hb w).
  destruct (body w) as [[a | e] w1]; simpl in *; [done |].
  case_bool_decide; simpl; [| done]. by rewrite Hh.
Qed.

Lemma read_only_print l : read_only (print l).
Proof. by intros w. Qed.

Lemma read_only_isdir p : read_only (os.isdir p).
Proof. by intros w. Qed.

Lemma read_only_isfile p : read_only (os.isfile p).
Proof. by intros w. Qed.

Lemma read_only_listdir d : read_only (os.listdir d).
Proof. intros w. unfold os.listdir. by destruct (files w !! d) as [[]|]. Qed.

Lemma read_only_open_read p : read_only (open_read p).
Proof. intros w. unfold open_read. by destruct (files w !! p) as [[]|]. Qed.

Lemma read_only_load data : read_only (json_lib.load data).
Proof. destruct data; apply read_only_ret || apply read_only_raise. Qed.

Lemma read_only_contains obj key : read_only (contains obj key).
Proof. destruct obj; apply read_only_ret || apply read_only_raise. Qed.

Lemma read_only_getitem obj key : read_only (getitem obj key).
Proof.
  destruct obj; simpl; try apply read_only_raise.
  destruct (Dict.get members key); apply read_only_ret || apply read_only_raise.
Qed.

#[export] Hint Resolve read_only_ret read_only_raise read_only_print
  read_only_isdir read_only_isfile read_only_listdir read_only_open_read
  read_only_load read_only_contains read_only_getitem : read_only.

Ltac read_only_step :=
  match goal with
  | |- read_only (_ ≫= _) => apply read_only_bind
  | |- read_only (try_except _ _ _) => apply read_only_try
  | |- read_only (if ?b then _ else _) => destruct b
  | |- read_only (match ?o with Some _ => _ | None => _ end) => destruct o
  | |- ∀ _, _ => intro
  | |- _ => solve [auto with read_only]
  end.

Lemma read_only_scan_items paper_id items : read_only (scan_items paper_id items).
Proof.
  induction items as [| item rest IH]; simpl; repeat read_only_step.
Qed.

(** C10: [extract_info] writes nothing: after the call, found or not, every
    path holds what it held before. *)
Theorem extract_info_read_only paper_id w :
  files (extract_info paper_id w).2 = files w.
Proof.
  revert w. change (read_only (extract_info paper_id)).
  unfold extract_info. repeat read_only_step. apply read_only_scan_items.
Qed.

(** C2: with no [PAPER_DIR] directory at all, [os.listdir] raises and
    nothing in [extract_info] catches it: the call ends in
    [FileNotFoundError], not in the sentence for an unknown paper. *)
Theorem extract_info_without_root paper_id out :
  extract_info paper_id (World ∅ out) = (Raise FileNotFoundError, World ∅ out).
Proof. reflexivity. Qed.

Lemma scan_items_not_found paper_id items w :
  (∀ item data,
     item ∈ items →
     files w !! Path.join (Path.join PAPER_DIR item) "papers_info.json" = Some (File data) →
     silent paper_id data) →
  ∃ out, scan_items paper_id items w
         = (Return (Message (no_saved_information paper_id)), World (files w) out).
Proof.
  revert w. induction items as [| item rest IH]; intros w Hsilent.
  { exists (stdout w). by destruct w. }
  assert (Hrest : ∀ w', files w' = files w →
            ∃ out, scan_items paper_id rest w'
                   = (Return (Message (no_saved_information paper_id)), World (files w) out)).
  { intros w' Hw'. rewrite <- Hw'. apply IH. intros i d Hi. rewrite Hw'.
    apply Hsilent. by apply list_elem_of_further. }
  simpl. py_unfold. destruct (os.is_dir _ _); [| by apply Hrest].
  unfold os.is_file.
  destruct (files w !! _) as [[data |] |] eqn:Hdata; [| by apply Hrest ..].
  specialize (Hsilent item data (list_elem_of_here _ _) Hdata).
  cbn beta. rewrite Hdata.
  destruct data as [[| | | | | members] | ? ? | ? | ? ?]; simpl in *;
    subst; try done; try (by apply Hrest).
  unfold Dict.mem. rewrite Hsilent. by apply Hrest.
Qed.

(** The sentence for an unknown paper is what [extract_info] returns once
    [PAPER_DIR] exists and every store is silent about the identifier. *)
Lemma extract_info_not_found paper_id w :
  files w !! PAPER_DIR = Some Dir →
  (∀ item data,
     files w !! Path.join (Path.join PAPER_DIR item) "papers_info.json" = Some (File data) →
     silent paper_id data) →
  ∃ out, extract_info paper_id w
         = (Return (Message (no_saved_information paper_id)), World (files w) out).
Proof.
  intros Hroot Hsilent. unfold extract_info. py_unfold. rewrite Hroot.
  apply scan_items_not_found. intros item data _. apply Hsilent.
Qed.

(** ** The store of a topic *)

Lemma load_papers_info_run file_path w :
  load_papers_info file_path w =
  match files w !! file_path with
  | Some (File (Json value)) => (Return value, w)
  | Some (File (Text _)) | None => (Return (JObject []), w)
  | Some (File (Pdf decodes _ | Other decodes _)) =>
      if decodes then (Return (JObject []), w) else (Raise UnicodeDecodeError, w)
  | Some Dir => (Raise IsADirectoryError, w)
  end.
Proof.
  unfold load_papers_info. py_unfold.
  by destruct (files w !! file_path) as [[[? | [] ? | ? | [] ?] |] |].
Qed.


(** C3: a store file whose bytes are not text makes the load of lines
    46-50 raise: reading it ends in [UnicodeDecodeError], which is not
    among the exceptions of line 49, so no empty mapping is returned. *)
Theorem load_papers_info_undecodable topic out e :
  load_papers_info (store_path topic)
    (World {[store_path topic := File (Other false e)]} out)
  = (Raise UnicodeDecodeError,
     World {[store_path topic := File (Other false e)]} out).
Proof. rewrite load_papers_info_run. simpl. by rewrite lookup_singleton_eq. Qed.

(** *** Dictionaries *)

Lemma dict_get_set_eq {V} (d : list (string * V)) k v :
  Dict.get (Dict.set d k v) k = Some v.
Proof.
  induction d as [| [k' v'] d IH]; simpl.
  - by rewrite String.eqb_refl.
  - destruct (String.eqb_spec k' k) as [-> | Hne]; simpl.
    + by rewrite String.eqb_refl.
    + by destruct (String.eqb_spec k' k).
Qed.

Lemma dict_get_set_ne {V} (d : list (string * V)) k k' v :
  k ≠ k' → Dict.get (Dict.set d k v) k' = Dict.get d k'.
Proof.
  intros Hne. induction d as [| [k0 v0] d IH]; simpl.
  - by destruct (String.eqb_spec k k').
  - destruct (String.eqb_spec k0 k) as [-> | Hk0]; simpl.
    + by destruct (String.eqb_spec k k').
    + by rewrite IH.
Qed.

Lemma merge_snoc members hits paper :
  merge members (hits ++ [paper])
  = Dict.set (merge members hits) (arxiv.get_short_id paper) (paper_info paper).
Proof. unfold merge. by rewrite foldl_app. Qed.

Lemma last_bearing_snoc paper_id hits paper :
  last_bearing paper_id (hits ++ [paper])
  = if decide (arxiv.get_short_id paper = paper_id) then Some paper
    else last_bearing paper_id hits.
Proof.
  unfold last_bearing. rewrite filter_app, last_app.
  rewrite filter_cons, filter_nil. by case_decide.
Qed.

Lemma last_bearing_None paper_id hits :
  last_bearing paper_id hits = None ↔ paper_id ∉ (arxiv.get_short_id <$> hits).
Proof.
  induction hits as [| paper hits IH] using rev_ind.
  { split; [intros _; apply not_elem_of_nil | done]. }
  rewrite last_bearing_snoc, fmap_app, elem_of_app; simpl.
  rewrite list_elem_of_singleton. case_decide as Hid.
  - split; [done | intros []; by right].
  - rewrite IH. split; [intros Hn [H | H]; congruence | intros Hn H; apply Hn; by left].
Qed.

Lemma last_bearing_id paper_id hits paper :
  last_bearing paper_id hits = Some paper → arxiv.get_short_id paper = paper_id.
Proof.
  induction hits as [| p hits IH] using rev_ind; [done |].
  rewrite last_bearing_snoc. case_decide; [congruence | done].
Qed.

(** What the merged dictionary holds under every key. *)
Lemma dict_get_merge members hits paper_id :
  Dict.get (merge members hits) paper_id
  = match last_bearing paper_id hits with
    | Some paper => Some (paper_info paper)
    | None => Dict.get members paper_id
    end.
Proof.
  induction hits as [| paper hits IH] using rev_ind; [done |].
  rewrite merge_snoc, last_bearing_snoc. case_decide as Hid.
  - rewrite <- Hid. apply dict_get_set_eq.
  - by rewrite dict_get_set_ne.
Qed.

(** *** The loop over the hits *)

Lemma merge_cons members paper hits :
  merge members (paper :: hits)
  = merge (Dict.set members (arxiv.get_short_id paper) (paper_info paper)) hits.
Proof. done. Qed.

Lemma process_papers_object papers paper_ids members w :
  process_papers papers paper_ids (JObject members) w =
  match arxiv.failure papers with
  | None =>
      (Return (paper_ids ++ (arxiv.get_short_id <$> arxiv.yielded papers),
               JObject (merge members (arxiv.yielded papers))), w)
  | Some e => (Raise e, w)
  end.
Proof.
  revert paper_ids members.
  induction papers as [| paper rest IH | e]; intros paper_ids members; simpl.
  - by rewrite app_nil_r.
  - py_unfold. simpl. rewrite IH. destruct (arxiv.failure rest); [done |].
    by rewrite <- app_assoc.
  - done.
Qed.

Lemma process_papers_other papers paper_ids value w :
  (∀ members, value ≠ JObject members) →
  process_papers papers paper_ids value w =
  match papers with
  | arxiv.Exhausted => (Return (paper_ids, value), w)
  | arxiv.Yield _ _ => (Raise TypeError, w)
  | arxiv.Failed e => (Raise e, w)
  end.
Proof.
  intros Hvalue. destruct papers; simpl; try done.
  - destruct value; try done. by destruct (Hvalue members).
Qed.

Lemma process_papers_world papers paper_ids value w :
  (process_papers papers paper_ids value w).2 = w.
Proof.
  revert paper_ids value.
  induction papers as [| paper rest IH | e]; intros paper_ids value; simpl; try done.
  py_unfold. destruct value; simpl; done.
Qed.

(** *** The directory of the topic *)

Lemma string_length_app a b :
  String.length (a +:+ b) = String.length a + String.length b.
Proof. induction a as [| c a IH]; simpl; [done | by rewrite IH]. Qed.

Lemma ancestors_shorter p q :
  q ∈ Path.ancestors p → String.length q < String.length p.
Proof.
  revert q. induction p as [| a p IH]; intros q; simpl.
  - by intros ?%elem_of_nil.
  - rewrite elem_of_app, list_elem_of_fmap. intros [Hq | (q' & -> & Hq')].
    + destruct (Ascii.eqb a Path.sep); [| by apply elem_of_nil in Hq].
      apply list_elem_of_singleton in Hq as ->. simpl. lia.
    + apply IH in Hq'. simpl. lia.
Qed.

Lemma makedirs_targets_length name q :
  q ∈ os.makedirs_targets name → String.length q ≤ String.length name.
Proof.
  unfold os.makedirs_targets. rewrite elem_of_app, list_elem_of_singleton.
  intros [[_ Hq%ancestors_shorter]%list_elem_of_filter | ->]; lia.
Qed.

Lemma join_longer a b :
  b ≠ EmptyString → Str.startswith b "/" = false →
  String.length a < String.length (Path.join a b).
Proof.
  intros Hb Hrel. unfold Path.join. rewrite Hrel.
  assert (0 < String.length b) by (destruct b; simpl; [done | lia]).
  destruct (_ || _); rewrite !string_length_app; lia.
Qed.

Lemma store_path_longer topic :
  String.length (topic_path topic) < String.length (store_path topic).
Proof. by apply join_longer. Qed.

Lemma store_path_not_target topic :
  store_path topic ∉ os.makedirs_targets (topic_path topic).
Proof.
  intros H%makedirs_targets_length. pose proof (store_path_longer topic). lia.
Qed.

Lemma store_path_not_topic_path topic : topic_path topic ≠ store_path topic.
Proof.
  intros H. pose proof (store_path_longer topic) as Hlt.
  rewrite <- H in Hlt. lia.
Qed.

Lemma lookup_foldr_dir (fs : gmap string node) targets q :
  foldr (λ q fs, <[q:=Dir]> fs) fs targets !! q
  = if decide (q ∈ targets) then Some Dir else fs !! q.
Proof.
  induction targets as [| t targets IH]; simpl.
  - destruct (decide (q ∈ [])) as [H | _]; [by apply elem_of_nil in H | done].
  - destruct (decide (t = q)) as [-> | Hne].
    + rewrite lookup_insert_eq.
      destruct (decide (q ∈ q :: targets)) as [_ | H]; [done |].
      destruct H. apply list_elem_of_here.
    + rewrite lookup_insert_ne, IH by done.
      destruct (decide (q ∈ targets)) as [Hin | Hout],
               (decide (q ∈ t :: targets)) as [Hin' | Hout']; try done.
      * destruct Hout'. by apply list_elem_of_further.
      * apply elem_of_cons in Hin' as [-> | ?]; done.
Qed.

Lemma makedirs_other name q w :
  q ∉ os.makedirs_targets name →
  files (os.makedirs name w).2 !! q = files w !! q.
Proof.
  intros Hq. unfold os.makedirs. destruct (os.is_dir _ _); [done |].
  destruct (List.find _ _); [done |]. simpl.
  rewrite lookup_foldr_dir. by case_decide.
Qed.

Lemma makedirs_stdout name w : stdout (os.makedirs name w).2 = stdout w.
Proof.
  unfold os.makedirs. destruct (os.is_dir _ _); [done |].
  by destruct (List.find _ _).
Qed.

Lemma makedirs_existing name w :
  os.is_dir (files w) name = true → os.makedirs name w = (Return (), w).
Proof. intros H. unfold os.makedirs. by rewrite H. Qed.

Lemma makedirs_is_dir name w :
  (os.makedirs name w).1 = Return () →
  os.is_dir (files (os.makedirs name w).2) name = true.
Proof.
  unfold os.makedirs. destruct (os.is_dir _ _) eqn:Hdir; [done |].
  destruct (List.find _ _); [done |]. intros _. simpl.
  unfold os.is_dir. rewrite lookup_foldr_dir. case_decide as H; [done |].
  destruct H. unfold os.makedirs_targets. rewrite elem_of_app, list_elem_of_singleton.
  by right.
Qed.

Lemma makedirs_raise name w e :
  (os.makedirs name w).1 = Raise e → (os.makedirs name w).2 = w.
Proof.
  unfold os.makedirs. destruct (os.is_dir _ _); [done |].
  by destruct (List.find _ _).
Qed.

(** *** [search_papers], statement by statement *)

Lemma search_papers_run client topic max_results w :
  search_papers client topic max_results w =
  match os.makedirs (topic_path topic) w with
  | (Raise e, w1) => (Raise e, w1)
  | (Return _, w1) =>
      match load_papers_info (store_path topic) w1 with
      | (Raise e, w2) => (Raise e, w2)
      | (Return papers_info, w2) =>
          match process_papers (client topic max_results) [] papers_info w2 with
          | (Raise e, w3) => (Raise e, w3)
          | (Return (paper_ids, papers_info'), w3) =>
              match json_lib.dump papers_info' (store_path topic) w3 with
              | (Raise e, w4) => (Raise e, w4)
              | (Return _, w4) =>
                  (Return paper_ids,
                   World (files w4) (stdout w4 ++ [ResultsSavedIn (store_path topic)]))
              end
          end
      end
  end.
Proof.
  unfold search_papers, topic_path, store_path, topic_path, topic_dir.
  unfold mbind, py_bind.
  destruct (os.makedirs _ w) as [[[] | e] w1]; [| done].
  destruct (load_papers_info _ w1) as [[papers_info | e] w2]; [| done].
  destruct (process_papers _ _ _ w2) as [[[paper_ids papers_info'] | e] w3]; [| done].
  by destruct (json_lib.dump _ _ w3) as [[[] | e] w4].
Qed.

(** Until the hits have all been processed, only [os.makedirs] has touched
    the table of files. *)
Lemma search_papers_failed_run client topic max_results w e :
  arxiv.failure (client topic max_results) = Some e →
  ∃ e', search_papers client topic max_results w
        = (Raise e', (os.makedirs (topic_path topic) w).2)
    ∧ ((os.makedirs (topic_path topic) w).1 = Return () →
       usable_store (files w) (store_path topic) = true → e' = e).
Proof.
  intros Hfail. rewrite search_papers_run.
  pose proof (makedirs_other (topic_path topic) (store_path topic) w
                (store_path_not_target topic)) as Hstore.
  destruct (os.makedirs _ w) as [[[] | e1] w1]; simpl in *; [| by eexists].
  rewrite load_papers_info_run. unfold usable_store. rewrite <- Hstore.
  destruct (files w1 !! store_path topic) as [[[value | [] ? | ? | [] ?] |] |];
    try (rewrite process_papers_object, Hfail; by eexists);
    try (by eexists).
  destruct value;
    try (rewrite process_papers_object, Hfail; by eexists).
  all: rewrite process_papers_other by done.
  all: destruct (client topic max_results); simpl in *; try done.
  all: try (eexists; split; [done | done]).
  all: eexists; split; [done | congruence].
Qed.

(** ** Searching a topic *)

(** C1: a search on a topic whose directory exists and whose store file
    holds a JSON object, answered by hits without a failure, writes back
    an object in which every identifier among the hits has the record of
    the last hit bearing it, every other identifier has the record it had,
    and no stored identifier is missing. *)
Theorem search_papers_merge client topic max_results w members :
  os.is_dir (files w) (topic_path topic) = true →
  files w !! store_path topic = Some (File (Json (JObject members))) →
  arxiv.failure (client topic max_results) = None →
  ∃ w' members',
    search_papers client topic max_results w
    = (Return (ids (arxiv.yielded (client topic max_results))), w')
    ∧ files w' !! store_path topic = Some (File (Json (JObject members')))
    ∧ (∀ paper_id paper,
         last_bearing paper_id (arxiv.yielded (client topic max_results)) = Some paper →
         Dict.get members' paper_id = Some (paper_info paper))
    ∧ (∀ paper_id,
         paper_id ∉ ids (arxiv.yielded (client topic max_results)) →
         Dict.get members' paper_id = Dict.get members paper_id)
    ∧ (∀ paper_id,
         is_Some (Dict.get members paper_id) → is_Some (Dict.get members' paper_id)).
Proof.
  intros Hdir Hstore Hok. set (hits := arxiv.yielded (client topic max_results)).
  exists (World (<[store_path topic := File (Json (JObject (merge members hits)))]> (files w))
                (stdout w ++ [ResultsSavedIn (store_path topic)])),
         (merge members hits).
  split_and!.
  - rewrite search_papers_run, makedirs_existing by done.
    rewrite load_papers_info_run, Hstore, process_papers_object, Hok.
    unfold json_lib.dump, open_write. by rewrite Hstore.
  - simpl. apply lookup_insert_eq.
  - intros paper_id paper Hlast. by rewrite dict_get_merge, Hlast.
  - intros paper_id Hnew%last_bearing_None. by rewrite dict_get_merge, Hnew.
  - intros paper_id Hold. rewrite dict_get_merge.
    by destruct (last_bearing paper_id hits).
Qed.

Lemma search_papers_merge_witness :
  os.is_dir (files Sample.stored_world) (topic_path "ml") = true
  ∧ files Sample.stored_world !! store_path "ml"
    = Some (File (Json (JObject Sample.stored_members)))
  ∧ arxiv.failure (Sample.twice "ml" 5) = None
  ∧ ∃ w' members',
      search_papers Sample.twice "ml" 5 Sample.stored_world
      = (Return (ids (arxiv.yielded (Sample.twice "ml" 5))), w')
      ∧ files w' !! store_path "ml" = Some (File (Json (JObject members')))
      ∧ (∀ paper_id paper,
           last_bearing paper_id (arxiv.yielded (Sample.twice "ml" 5)) = Some paper →
           Dict.get members' paper_id = Some (paper_info paper))
      ∧ (∀ paper_id,
           paper_id ∉ ids (arxiv.yielded (Sample.twice "ml" 5)) →
           Dict.get members' paper_id = Dict.get Sample.stored_members paper_id)
      ∧ (∀ paper_id,
           is_Some (Dict.get Sample.stored_members paper_id) →
           is_Some (Dict.get members' paper_id)).
Proof.
  split; [vm_compute; reflexivity |].
  split; [vm_compute; reflexivity |].
  split; [reflexivity |].
  apply (search_papers_merge Sample.twice "ml" 5 Sample.stored_world Sample.stored_members);
    vm_compute; reflexivity.
Defined.

(** C6: when the stream of results ends in a failure, the call raises and
    the store file of the topic is what it was before the call; the
    exception is the collaborator's own whenever the directory could be
    made and the store file was usable. *)
Theorem search_papers_upstream_failure client topic max_results w e :
  arxiv.failure (client topic max_results) = Some e →
  ∃ e' w',
    search_papers client topic max_results w = (Raise e', w')
    ∧ files w' !! store_path topic = files w !! store_path topic
    ∧ ((os.makedirs (topic_path topic) w).1 = Return () →
       usable_store (files w) (store_path topic) = true → e' = e).
Proof.
  intros Hfail.
  destruct (search_papers_failed_run client topic max_results w e Hfail)
    as (e' & Hrun & He').
  exists e', (os.makedirs (topic_path topic) w).2. split_and!; [done | | done].
  apply makedirs_other, store_path_not_target.
Qed.

Lemma search_papers_upstream_failure_witness :
  arxiv.failure (Sample.interrupted "ml" 5) = Some HTTPError
  ∧ ∃ e' w',
      search_papers Sample.interrupted "ml" 5 Sample.stored_world = (Raise e', w')
      ∧ files w' !! store_path "ml" = files Sample.stored_world !! store_path "ml"
      ∧ ((os.makedirs (topic_path "ml") Sample.stored_world).1 = Return () →
         usable_store (files Sample.stored_world) (store_path "ml") = true →
         e' = HTTPError).
Proof.
  split; [reflexivity |].
  apply (search_papers_upstream_failure Sample.interrupted "ml" 5 Sample.stored_world).
  reflexivity.
Defined.

Lemma load_papers_info_world file_path w : (load_papers_info file_path w).2 = w.
Proof.
  rewrite load_papers_info_run. by destruct (files w !! file_path) as [[[? | [] ? | ? | [] ?] |] |].
Qed.

Lemma dump_keeps_directory value file_path dir w :
  dir ≠ file_path →
  os.is_dir (files (json_lib.dump value file_path w).2) dir = os.is_dir (files w) dir.
Proof.
  intros Hne. unfold json_lib.dump, open_write, os.is_dir.
  destruct (files w !! file_path) as [[] |]; simpl; try done;
    by rewrite lookup_insert_ne.
Qed.

(** C7, as the code has it: the directory of the topic is made at the
    start of every call, before the first hit is fetched.  When making it
    succeeds the directory is there after the call, however the call ends;
    and a call whose stream of results fails has changed nothing else in
    the table of files. *)
Theorem search_papers_makes_directory client topic max_results w :
  (os.makedirs (topic_path topic) w).1 = Return () →
  os.is_dir (files (search_papers client topic max_results w).2) (topic_path topic) = true
  ∧ (∀ e, arxiv.failure (client topic max_results) = Some e →
       files (search_papers client topic max_results w).2
       = files (os.makedirs (topic_path topic) w).2).
Proof.
  intros Hmk. split.
  - pose proof (makedirs_is_dir _ _ Hmk) as Hdir. rewrite search_papers_run.
    destruct (os.makedirs _ w) as [[[] | e1] w1]; simpl in *; [| done].
    pose proof (load_papers_info_world (store_path topic) w1) as Hload.
    destruct (load_papers_info _ w1) as [[papers_info | e2] w2];
      simpl in Hload; subst w2; [| done].
    pose proof (process_papers_world (client topic max_results) [] papers_info w1)
      as Hloop.
    destruct (process_papers _ _ _ w1) as [[[paper_ids papers_info'] | e3] w3];
      simpl in Hloop; subst w3; [| done].
    pose proof (dump_keeps_directory papers_info' _ _ w1
                  (store_path_not_topic_path topic)) as Hdump.
    destruct (json_lib.dump _ _ w1) as [[[] | e4] w4]; simpl in *; congruence.
  - intros e Hfail.
    by destruct (search_papers_failed_run client topic max_results w e Hfail)
      as (e' & -> & _).
Qed.

Lemma search_papers_makes_directory_witness :
  (os.makedirs (topic_path "ml") Sample.empty_world).1 = Return ()
  ∧ os.is_dir (files (search_papers Sample.unreachable "ml" 5 Sample.empty_world).2)
      (topic_path "ml") = true
  ∧ (∀ e, arxiv.failure (Sample.unreachable "ml" 5) = Some e →
       files (search_papers Sample.unreachable "ml" 5 Sample.empty_world).2
       = files (os.makedirs (topic_path "ml") Sample.empty_world).2).
Proof.
  split; [vm_compute; reflexivity |].
  apply (search_papers_makes_directory Sample.unreachable "ml" 5 Sample.empty_world).
  vm_compute; reflexivity.
Defined.

(** C7, as the claim has it, fails: the service cannot be reached, no
    directory exists for the topic before the call, and one exists after
    it. *)
Lemma failed_search_creates_directory :
  arxiv.failure (Sample.unreachable "ml" 5) = Some ConnectionError
  ∧ (search_papers Sample.unreachable "ml" 5 Sample.empty_world).1 = Raise ConnectionError
  ∧ os.is_dir (files Sample.empty_world) (topic_path "ml") = false
  ∧ os.is_dir (files (search_papers Sample.unreachable "ml" 5 Sample.empty_world).2)
      (topic_path "ml") = true.
Proof. split_and!; vm_compute; reflexivity. Qed.

Lemma occurrences_ids paper_id hits :
  length (filter (λ x, x = paper_id) (ids hits))
  = length (filter (λ paper, arxiv.get_short_id paper = paper_id) hits).
Proof.
  induction hits as [| paper hits IH]; [done |].
  unfold ids in *. rewrite fmap_cons, !filter_cons.
  case_decide; simpl; by rewrite IH.
Qed.

Lemma last_bearing_Some paper_id hits :
  paper_id ∈ ids hits → ∃ paper, last_bearing paper_id hits = Some paper.
Proof.
  intros Hin. destruct (last_bearing paper_id hits) as [paper |] eqn:Hlast; [by eexists |].
  by apply last_bearing_None in Hlast.
Qed.

(** C9: when a search returns the list [L], [L] is the identifiers of the
    hits in the order received, one entry for each hit, so an identifier
    sent twice is there twice; the store file written by the call holds,
    for every identifier of [L], the record built from the last hit
    bearing it. *)
Theorem search_papers_returned_ids client topic max_results w L w' :
  search_papers client topic max_results w = (Return L, w') →
  L = ids (arxiv.yielded (client topic max_results))
  ∧ (∀ paper_id,
       length (filter (λ x, x = paper_id) L)
       = length (filter (λ paper, arxiv.get_short_id paper = paper_id)
                   (arxiv.yielded (client topic max_results))))
  ∧ ∃ papers_info,
      files w' !! store_path topic = Some (File (Json papers_info))
      ∧ ∀ paper_id, paper_id ∈ L →
          ∃ members paper,
            papers_info = JObject members
            ∧ last_bearing paper_id (arxiv.yielded (client topic max_results)) = Some paper
            ∧ Dict.get members paper_id = Some (paper_info paper).
Proof.
  set (hits := arxiv.yielded (client topic max_results)).
  rewrite search_papers_run.
  destruct (os.makedirs _ w) as [[[] | e1] w1]; [| done].
  rewrite load_papers_info_run.
  assert (Hdump : ∀ paper_ids value,
    match json_lib.dump value (store_path topic) w1 with
    | (Return _, w4) =>
        (Return paper_ids,
         World (files w4) (stdout w4 ++ [ResultsSavedIn (store_path topic)]))
    | (Raise e, w4) => (Raise e, w4)
    end = (Return L, w') →
    L = paper_ids ∧ files w' !! store_path topic = Some (File (Json value))).
  { intros paper_ids value. unfold json_lib.dump, open_write.
    destruct (files w1 !! store_path topic) as [[] |]; intros [= <- <-]; simpl;
      by rewrite lookup_insert_eq. }
  assert (Hobject : ∀ members,
    match process_papers (client topic max_results) [] (JObject members) w1 with
    | (Return (paper_ids, papers_info'), w3) =>
        match json_lib.dump papers_info' (store_path topic) w3 with
        | (Return _, w4) =>
            (Return paper_ids,
             World (files w4) (stdout w4 ++ [ResultsSavedIn (store_path topic)]))
        | (Raise e, w4) => (Raise e, w4)
        end
    | (Raise e, w3) => (Raise e, w3)
    end = (Return L, w') →
    L = ids hits
    ∧ files w' !! store_path topic = Some (File (Json (JObject (merge members hits))))).
  { intros members. rewrite process_papers_object.
    destruct (arxiv.failure _); [done |]. simpl. apply Hdump. }
  assert (Hfinish : ∀ members,
    L = ids hits
    ∧ files w' !! store_path topic = Some (File (Json (JObject (merge members hits)))) →
    L = ids hits
    ∧ (∀ paper_id,
         length (filter (λ x, x = paper_id) L)
         = length (filter (λ paper, arxiv.get_short_id paper = paper_id) hits))
    ∧ ∃ papers_info,
        files w' !! store_path topic = Some (File (Json papers_info))
        ∧ ∀ paper_id, paper_id ∈ L →
            ∃ members paper,
              papers_info = JObject members
              ∧ last_bearing paper_id hits = Some paper
              ∧ Dict.get members paper_id = Some (paper_info paper)).
  { intros members [-> Hfile]. split; [done | split; [intros; apply occurrences_ids |]].
    eexists; split; [done |]. intros paper_id [paper Hlast]%last_bearing_Some.
    exists (merge members hits), paper. by rewrite dict_get_merge, Hlast. }
  destruct (files w1 !! store_path topic) as [[[value | [] ? | ? | [] ?] |] |]
    eqn:Hstore;
    try (intros H; by apply (Hfinish []), Hobject).
  destruct value as [| b | literal | s | items | members];
    try (intros H; by apply (Hfinish members), Hobject).
  all: rewrite process_papers_other by done.
  all: subst hits; destruct (client topic max_results); simpl; try done.
  all: intros [-> Hfile]%Hdump; split_and!; [done | done |].
  all: eexists; split; [done |]; by intros paper_id ?%elem_of_nil.
Qed.

Lemma search_papers_returned_ids_witness :
  search_papers Sample.twice "Machine Learning" 5 Sample.empty_world
  = (Return ["2401.00001v1"; "2402.00002v1"; "2401.00001v1"],
     (search_papers Sample.twice "Machine Learning" 5 Sample.empty_world).2)
  ∧ ["2401.00001v1"; "2402.00002v1"; "2401.00001v1"]
    = ids (arxiv.yielded (Sample.twice "Machine Learning" 5))
  ∧ (∀ paper_id,
       length (filter (λ x, x = paper_id) ["2401.00001v1"; "2402.00002v1"; "2401.00001v1"])
       = length (filter (λ paper, arxiv.get_short_id paper = paper_id)
                   (arxiv.yielded (Sample.twice "Machine Learning" 5))))
  ∧ ∃ papers_info,
      files (search_papers Sample.twice "Machine Learning" 5 Sample.empty_world).2
        !! store_path "Machine Learning"
      = Some (File (Json papers_info))
      ∧ ∀ paper_id,
          paper_id ∈ ["2401.00001v1"; "2402.00002v1"; "2401.00001v1"] →
          ∃ members paper,
            papers_info = JObject members
            ∧ last_bearing paper_id (arxiv.yielded (Sample.twice "Machine Learning" 5))
              = Some paper
            ∧ Dict.get members paper_id = Some (paper_info paper).
Proof.
  assert (H : search_papers Sample.twice "Machine Learning" 5 Sample.empty_world
              = (Return ["2401.00001v1"; "2402.00002v1"; "2401.00001v1"],
                 (search_papers Sample.twice "Machine Learning" 5 Sample.empty_world).2))
    by (vm_compute; reflexivity).
  split; [exact H |].
  exact (search_papers_returned_ids Sample.twice "Machine Learning" 5
           Sample.empty_world _ _ H).
Defined.

(** ** Extracting the text of a document *)

Lemma string_app_assoc a b c : (a +:+ b) +:+ c = a +:+ (b +:+ c).
Proof.
  induction a as [| x a IH]; [done |].
  change (String x ((a +:+ b) +:+ c) = String x (a +:+ (b +:+ c))).
  by rewrite IH.
Qed.

Lemma string_app_nil_r a : a +:+ EmptyString = a.
Proof.
  induction a as [| x a IH]; [done |].
  change (String x (a +:+ EmptyString) = String x a). by rewrite IH.
Qed.

(** The loop over [range(total_pages)] visits the pages in order. *)
Lemma extract_pages_seq visited pages total_text w :
  extract_pages (visited ++ pages) (seq (length visited) (length pages)) total_text w
  = (text_of_pages pages total_text, w).
Proof.
  revert visited total_text.
  induction pages as [| p pages IH]; intros visited total_text; [done |].
  simpl. rewrite list_lookup_middle by done. py_unfold.
  destruct p as [page_text | e]; simpl; [| done].
  specialize (IH (visited ++ [PageText page_text])). revert IH.
  rewrite <- app_assoc, length_app. simpl.
  replace (length visited + 1) with (S (length visited)) by lia.
  intros IH. apply IH.
Qed.

Lemma extract_pages_all pages total_text w :
  extract_pages pages (seq 0 (length pages)) total_text w
  = (text_of_pages pages total_text, w).
Proof. apply (extract_pages_seq [] pages). Qed.

Lemma text_of_pages_texts texts total_text :
  text_of_pages (PageText <$> texts) total_text
  = Return (total_text +:+ contributions texts).
Proof.
  revert total_text. induction texts as [| t texts IH]; intros total_text; simpl.
  - by rewrite string_app_nil_r.
  - rewrite IH. unfold contribution.
    destruct (String.eqb t EmptyString); [done | by rewrite string_app_assoc].
Qed.






(** A path that is not an existing file, and a file on which PyPDF2
    raises [PdfReadError], give [None] and leave the table of files as it
    was. *)
Lemma extract_text_paper_rejected paper_path w :
  (os.is_file (files w) paper_path = false
   ∨ ∃ data, files w !! paper_path = Some (File data) ∧ rejected data) →
  ∃ out, extract_text_paper paper_path w = (Return None, World (files w) out).
Proof.
  unfold extract_text_paper. py_unfold. intros [Hmissing | (data & Hfile & Hdata)].
  - rewrite Hmissing. simpl. by eexists.
  - unfold os.is_file. rewrite Hfile. simpl. rewrite Hfile.
    destruct data as [value | decodes pages | text | decodes e]; simpl in *;
      subst; try by eexists.
    rewrite extract_pages_all, Hdata. simpl. by eexists.
Qed.

(** C5: a damaged document on which PyPDF2 raises something else than
    [PdfReadError] (here [KeyError], from counting the pages of a
    document without a root object) does not give [None]: the handler of
    line 150 lets the exception through.  Nothing is written. *)
Theorem extract_text_paper_damaged paper_path decodes out :
  extract_text_paper paper_path
    (World {[paper_path := File (Other decodes KeyError)]} out)
  = (Raise KeyError, World {[paper_path := File (Other decodes KeyError)]} out).
Proof.
  unfold extract_text_paper. py_unfold. unfold os.is_file. simpl.
  rewrite lookup_singleton_eq. simpl. by rewrite lookup_singleton_eq.
Qed.

(** * Further properties of the tools *)

(** ** [search_papers]: what reaches the store and what does not *)

Lemma load_papers_info_not_dir file_path w value :
  (load_papers_info file_path w).1 = Return value →
  os.is_dir (files w) file_path = false.
Proof.
  rewrite load_papers_info_run. unfold os.is_dir.
  by destruct (files w !! file_path) as [[[? | [] ? | ? | [] ?] |] |].
Qed.

(** A call that returns has gone through every statement. *)
Lemma search_papers_return_inv client topic max_results w L w' :
  search_papers client topic max_results w = (Return L, w') →
  ∃ w1 papers_info papers_info',
    os.makedirs (topic_path topic) w = (Return (), w1)
    ∧ load_papers_info (store_path topic) w1 = (Return papers_info, w1)
    ∧ process_papers (client topic max_results) [] papers_info w1
      = (Return (L, papers_info'), w1)
    ∧ w' = World (<[store_path topic := File (Json papers_info')]> (files w1))
                 (stdout w1 ++ [ResultsSavedIn (store_path topic)]).
Proof.
  rewrite search_papers_run.
  destruct (os.makedirs _ w) as [[[] | e1] w1]; [| done].
  pose proof (load_papers_info_world (store_path topic) w1) as Hload.
  pose proof (load_papers_info_not_dir (store_path topic) w1) as Hnodir.
  destruct (load_papers_info _ w1) as [[papers_info | e2] w2] eqn:Hl;
    simpl in Hload; subst w2; [| done].
  pose proof (process_papers_world (client topic max_results) [] papers_info w1)
    as Hloop.
  destruct (process_papers _ _ _ w1) as [[[paper_ids papers_info'] | e3] w3] eqn:Hp;
    simpl in Hloop; subst w3; [| done].
  specialize (Hnodir papers_info eq_refl). unfold os.is_dir in Hnodir.
  unfold json_lib.dump, open_write.
  destruct (files w1 !! store_path topic) as [[] |]; try done;
    intros [= <- <-]; by exists w1, papers_info, papers_info'.
Qed.







Lemma makedirs_keeps_file name w q data :
  files w !! q = Some (File data) →
  files (os.makedirs name w).2 !! q = Some (File data).
Proof.
  intros Hq. unfold os.makedirs. destruct (os.is_dir _ _); [done |].
  destruct (List.find _ _) as [t |] eqn:Hfind; [done |]. simpl.
  rewrite lookup_foldr_dir.
  destruct (decide (q ∈ os.makedirs_targets name)) as [Hin | _]; [| done].
  apply list_elem_of_In in Hin.
  pose proof (find_none _ _ Hfind q Hin) as Hfile.
  unfold os.is_file in Hfile. by rewrite Hq in Hfile.
Qed.

Lemma makedirs_keeps_paths name w q :
  is_Some (files w !! q) → is_Some (files (os.makedirs name w).2 !! q).
Proof.
  intros Hq. unfold os.makedirs. destruct (os.is_dir _ _); [done |].
  destruct (List.find _ _); [done |]. simpl.
  rewrite lookup_foldr_dir. by case_decide.
Qed.

(** What a call does to the table of files, whatever its outcome: the
    work of [os.makedirs], then at most one write to the store file. *)
Lemma search_papers_files client topic max_results w :
  files (search_papers client topic max_results w).2
  = files (os.makedirs (topic_path topic) w).2
  ∨ ∃ value,
      files (search_papers client topic max_results w).2
      = <[store_path topic := File (Json value)]>
          (files (os.makedirs (topic_path topic) w).2).
Proof.
  rewrite search_papers_run.
  destruct (os.makedirs _ w) as [[[] | e1] w1]; simpl; [| by left].
  pose proof (load_papers_info_world (store_path topic) w1) as Hload.
  destruct (load_papers_info _ w1) as [[papers_info | e2] w2];
    simpl in Hload; subst w2; [| by left].
  pose proof (process_papers_world (client topic max_results) [] papers_info w1)
    as Hloop.
  destruct (process_papers _ _ _ w1) as [[[paper_ids papers_info'] | e3] w3];
    simpl in Hloop; subst w3; [| by left].
  unfold json_lib.dump, open_write.
  destruct (files w1 !! store_path topic) as [[] |]; simpl;
    (by left) || (right; by eexists).
Qed.

(** X3: whatever the service answers and however the call ends, a search
    changes no regular file other than the store file of its topic, and
    removes no path. *)
Theorem search_papers_spares_other_files client topic max_results w q :
  (∀ data, q ≠ store_path topic → files w !! q = Some (File data) →
     files (search_papers client topic max_results w).2 !! q = Some (File data))
  ∧ (is_Some (files w !! q) →
     is_Some (files (search_papers client topic max_results w).2 !! q)).
Proof.
  destruct (search_papers_files client topic max_results w) as [-> | [value ->]].
  - split; [intros data _; apply makedirs_keeps_file | apply makedirs_keeps_paths].
  - split.
    + intros data Hq Hfile. rewrite lookup_insert_ne by done.
      by apply makedirs_keeps_file.
    + intros Hsome. destruct (decide (store_path topic = q)) as [-> | Hne].
      * by rewrite lookup_insert_eq.
      * rewrite lookup_insert_ne by done. by apply makedirs_keeps_paths.
Qed.



(** ** The keys of the store *)

Lemma dict_get_None {V} (d : list (string * V)) k :
  Dict.get d k = None ↔ k ∉ d.*1.
Proof.
  induction d as [| [k' v'] d IH]; simpl.
  - split; [intros _; apply not_elem_of_nil | done].
  - rewrite not_elem_of_cons. destruct (String.eqb_spec k' k) as [-> | Hne].
    + split; [done | by intros [? _]].
    + rewrite IH. split; [by intros ? | by intros [_ ?]].
Qed.

Lemma dict_mem_keys {V} (d : list (string * V)) k :
  Dict.mem d k = true ↔ k ∈ d.*1.
Proof.
  unfold Dict.mem. destruct (Dict.get d k) eqn:Hget.
  - split; [intros _ | done].
    destruct (decide (k ∈ d.*1)) as [| Hout]; [done |].
    apply dict_get_None in Hout. congruence.
  - split; [done |]. by apply dict_get_None in Hget.
Qed.

Lemma dict_set_keys {V} (d : list (string * V)) k v :
  (Dict.set d k v).*1 = if Dict.mem d k then d.*1 else d.*1 ++ [k].
Proof.
  unfold Dict.mem. induction d as [| [k' v'] d IH]; [done |].
  cbn [Dict.set Dict.get].
  destruct (String.eqb_spec k' k) as [-> | Hne]; [done |].
  rewrite !fmap_cons, IH. by destruct (Dict.get d k).
Qed.

Lemma dict_set_NoDup {V} (d : list (string * V)) k v :
  NoDup d.*1 → NoDup (Dict.set d k v).*1.
Proof.
  intros Hd. rewrite dict_set_keys. destruct (Dict.mem d k) eqn:Hmem; [done |].
  apply NoDup_app. split_and!; [done | | apply NoDup_singleton].
  intros k' Hin Hk%list_elem_of_singleton. subst k'.
  apply dict_mem_keys in Hin. congruence.
Qed.

(** Two dictionaries with the same keys in the same order, none twice,
    and the same value under every key are the same list. *)
Lemma dict_ext {V} (d1 d2 : list (string * V)) :
  NoDup d1.*1 → d1.*1 = d2.*1 →
  (∀ k, Dict.get d1 k = Dict.get d2 k) → d1 = d2.
Proof.
  revert d2. induction d1 as [| [k v1] d1 IH]; intros [| [k2 v2] d2]; try done.
  rewrite !fmap_cons. cbn [fst].
  intros [Hk Hd1]%NoDup_cons [= <- Hkeys] Hget.
  pose proof (Hget k) as Hhead. cbn [Dict.get] in Hhead.
  rewrite String.eqb_refl in Hhead. injection Hhead as <-.
  f_equal. apply IH; [done | done |].
  intros k'. specialize (Hget k'). cbn [Dict.get] in Hget.
  destruct (String.eqb_spec k k') as [Heq | Hne]; [subst k' | done].
  assert (Hk2 : k ∉ d2.*1) by congruence.
  apply dict_get_None in Hk, Hk2. congruence.
Qed.

Lemma merge_keys members hits :
  ∃ new, (merge members hits).*1 = members.*1 ++ new.
Proof.
  revert members. induction hits as [| paper hits IH]; intros members.
  - exists []. by rewrite app_nil_r.
  - rewrite merge_cons. destruct (IH (Dict.set members (arxiv.get_short_id paper)
                                        (paper_info paper))) as [new ->].
    rewrite dict_set_keys. destruct (Dict.mem _ _); [by eexists |].
    rewrite <- app_assoc. by eexists.
Qed.

Lemma merge_NoDup members hits :
  NoDup members.*1 → NoDup (merge members hits).*1.
Proof.
  revert members. induction hits as [| paper hits IH]; intros members Hd; [done |].
  rewrite merge_cons. by apply IH, dict_set_NoDup.
Qed.

Lemma merge_keys_present members hits :
  (∀ paper_id, paper_id ∈ ids hits → paper_id ∈ members.*1) →
  (merge members hits).*1 = members.*1.
Proof.
  revert members. induction hits as [| paper hits IH]; intros members Hin; [done |].
  assert (Hmem : Dict.mem members (arxiv.get_short_id paper) = true).
  { apply dict_mem_keys, Hin. apply list_elem_of_here. }
  assert (Hkeys : (Dict.set members (arxiv.get_short_id paper) (paper_info paper)).*1
                  = members.*1) by by rewrite dict_set_keys, Hmem.
  rewrite merge_cons, IH; [done |].
  intros paper_id Hid. rewrite Hkeys. apply Hin. by apply list_elem_of_further.
Qed.

Lemma merge_has_ids members hits paper_id :
  paper_id ∈ ids hits → paper_id ∈ (merge members hits).*1.
Proof.
  intros [paper Hlast]%last_bearing_Some.
  apply dict_mem_keys. unfold Dict.mem. by rewrite dict_get_merge, Hlast.
Qed.

(** Merging the same hits a second time changes nothing. *)
Lemma merge_idem members hits :
  NoDup members.*1 → merge (merge members hits) hits = merge members hits.
Proof.
  intros Hd. apply dict_ext.
  - by apply merge_NoDup, merge_NoDup.
  - apply merge_keys_present. intros paper_id. apply merge_has_ids.
  - intros paper_id. rewrite !dict_get_merge.
    by destruct (last_bearing paper_id hits).
Qed.

(** The mapping a returning call has loaded, in terms of the file. *)
Lemma load_papers_info_object file_path w members :
  load_papers_info file_path w = (Return (JObject members), w) →
  files w !! file_path = Some (File (Json (JObject members))) ∨ members = [].
Proof.
  rewrite load_papers_info_run.
  destruct (files w !! file_path) as [[[? | [] ? | ? | [] ?] |] |]; intros [=]; subst; auto.
Qed.

Lemma first_occurrences_filter (P : string → Prop) `{∀ x, Decision (P x)} l :
  first_occurrences (filter P l) = filter P (first_occurrences l).
Proof.
  induction l as [| x l IH]; [done |].
  destruct (decide (P x)) as [Hx | Hx].
  - rewrite filter_cons_True by done. simpl.
    rewrite filter_cons_True by done. f_equal. rewrite IH.
    rewrite !list_filter_filter. apply list_filter_iff. intros y. tauto.
  - rewrite filter_cons_False by done. simpl.
    rewrite filter_cons_False by done. rewrite IH.
    rewrite list_filter_filter. apply list_filter_iff.
    intros y. split; [| tauto]. intros Hy. split; [done |]. by intros ->.
Qed.

(** The keys after the loop: those there before, in their order, then
    the identifiers that were not there, in the order of their first hit. *)
Lemma merge_keys_exact members hits :
  (merge members hits).*1 = members.*1 ++ new_ids members hits.
Proof.
  unfold new_ids. revert members.
  induction hits as [| paper hits IH]; intros members.
  { by rewrite app_nil_r. }
  rewrite merge_cons, IH, dict_set_keys. unfold ids. rewrite fmap_cons.
  fold (ids hits). set (k := arxiv.get_short_id paper).
  destruct (Dict.mem members k) eqn:Hmem.
  - apply dict_mem_keys in Hmem. by rewrite filter_cons_False by tauto.
  - assert (Hk : k ∉ members.*1).
    { intros Hin%dict_mem_keys. congruence. }
    rewrite filter_cons_True by done. simpl. rewrite <- app_assoc. simpl.
    do 2 f_equal. rewrite <- first_occurrences_filter. f_equal.
    rewrite list_filter_filter. apply list_filter_iff. intros y.
    rewrite not_elem_of_app, list_elem_of_singleton. tauto.
Qed.

(** X5: when a search on a store that holds a JSON object returns, the
    keys of the object written are the keys of the stored object, in the
    order they had, followed by the identifiers of the hits that were not
    among them, each once, in the order in which they first came; and if
    no key was there twice, none is there twice afterwards. *)
Theorem search_papers_keeps_key_order client topic max_results w members L w' :
  search_papers client topic max_results w = (Return L, w') →
  files w !! store_path topic = Some (File (Json (JObject members))) →
  ∃ members',
    files w' !! store_path topic = Some (File (Json (JObject members')))
    ∧ members'.*1
      = members.*1 ++ new_ids members (arxiv.yielded (client topic max_results))
    ∧ (NoDup members.*1 → NoDup members'.*1).
Proof.
  intros (w1 & papers_info & papers_info' & Hmk & Hload & Hloop & ->)%search_papers_return_inv
         Hstore.
  assert (Hw1 : files w1 !! store_path topic = Some (File (Json (JObject members)))).
  { replace w1 with (os.makedirs (topic_path topic) w).2 by by rewrite Hmk.
    by rewrite makedirs_other by apply store_path_not_target. }
  rewrite load_papers_info_run, Hw1 in Hload. injection Hload as <-.
  rewrite process_papers_object in Hloop.
  destruct (arxiv.failure _); [done |]. injection Hloop as <- <-.
  eexists. split; [apply lookup_insert_eq |].
  split; [apply merge_keys_exact | apply merge_NoDup].
Qed.

Lemma search_papers_keeps_key_order_witness :
  search_papers Sample.twice "ml" 5 Sample.stored_world
  = (Return ["2401.00001v1"; "2402.00002v1"; "2401.00001v1"],
     (search_papers Sample.twice "ml" 5 Sample.stored_world).2)
  ∧ files Sample.stored_world !! store_path "ml"
    = Some (File (Json (JObject Sample.stored_members)))
  ∧ ∃ members',
      files (search_papers Sample.twice "ml" 5 Sample.stored_world).2 !! store_path "ml"
      = Some (File (Json (JObject members')))
      ∧ members'.*1
        = Sample.stored_members.*1
          ++ new_ids Sample.stored_members (arxiv.yielded (Sample.twice "ml" 5))
      ∧ (NoDup Sample.stored_members.*1 → NoDup members'.*1).
Proof.
  assert (H : search_papers Sample.twice "ml" 5 Sample.stored_world
              = (Return ["2401.00001v1"; "2402.00002v1"; "2401.00001v1"],
                 (search_papers Sample.twice "ml" 5 Sample.stored_world).2))
    by (vm_compute; reflexivity).
  assert (Hs : files Sample.stored_world !! store_path "ml"
               = Some (File (Json (JObject Sample.stored_members))))
    by (vm_compute; reflexivity).
  split; [exact H |]. split; [exact Hs |].
  exact (search_papers_keeps_key_order Sample.twice "ml" 5 Sample.stored_world
           Sample.stored_members _ _ H Hs).
Defined.

(** X6: a search that returned, asked again at once and answered with the
    same stream, returns the same list and leaves the table of files as
    the first call left it, provided the stored object, if there was one,
    had no key twice. *)
Theorem search_papers_twice client topic max_results w L w1 :
  search_papers client topic max_results w = (Return L, w1) →
  (∀ members, files w !! store_path topic = Some (File (Json (JObject members))) →
     NoDup members.*1) →
  search_papers client topic max_results w1
  = (Return L, World (files w1) (stdout w1 ++ [ResultsSavedIn (store_path topic)])).
Proof.
  intros (w0 & papers_info & papers_info' & Hmk & Hload & Hloop & ->)%search_papers_return_inv
         Hnodup.
  set (w1 := World (<[store_path topic := File (Json papers_info')]> (files w0))
                   (stdout w0 ++ [ResultsSavedIn (store_path topic)])).
  assert (Hw0 : files w0 !! store_path topic = files w !! store_path topic).
  { replace w0 with (os.makedirs (topic_path topic) w).2 by by rewrite Hmk.
    by rewrite makedirs_other by apply store_path_not_target. }
  assert (Hdir : os.is_dir (files w1) (topic_path topic) = true).
  { unfold os.is_dir. simpl.
    rewrite lookup_insert_ne by (intros H; by apply (store_path_not_topic_path topic)).
    replace w0 with (os.makedirs (topic_path topic) w).2 by by rewrite Hmk.
    apply makedirs_is_dir. by rewrite Hmk. }
  assert (Hfile : files w1 !! store_path topic = Some (File (Json papers_info')))
    by apply lookup_insert_eq.
  assert (Hagain : process_papers (client topic max_results) [] papers_info' w1
                   = (Return (L, papers_info'), w1)).
  { destruct papers_info as [| b | literal | s | items | members].
    all: try (rewrite process_papers_other in Hloop by done;
              destruct (client topic max_results); try done;
              by injection Hloop as <- <-).
    rewrite process_papers_object in Hloop.
    destruct (arxiv.failure _) eqn:Hok; [done |]. injection Hloop as <- <-.
    rewrite process_papers_object, Hok, merge_idem; [done |].
    apply load_papers_info_object in Hload as [Hload | ->]; [| apply NoDup_nil_2].
    apply Hnodup. by rewrite <- Hw0. }
  rewrite search_papers_run, makedirs_existing by done.
  rewrite load_papers_info_run, Hfile, Hagain.
  unfold json_lib.dump, open_write. rewrite Hfile. simpl.
  by rewrite insert_insert_eq.
Qed.

Lemma search_papers_twice_witness :
  search_papers Sample.twice "ml" 5 Sample.stored_world
  = (Return ["2401.00001v1"; "2402.00002v1"; "2401.00001v1"],
     (search_papers Sample.twice "ml" 5 Sample.stored_world).2)
  ∧ (∀ members,
       files Sample.stored_world !! store_path "ml" = Some (File (Json (JObject members))) →
       NoDup members.*1)
  ∧ search_papers Sample.twice "ml" 5 (search_papers Sample.twice "ml" 5 Sample.stored_world).2
    = (Return ["2401.00001v1"; "2402.00002v1"; "2401.00001v1"],
       World (files (search_papers Sample.twice "ml" 5 Sample.stored_world).2)
             (stdout (search_papers Sample.twice "ml" 5 Sample.stored_world).2
              ++ [ResultsSavedIn (store_path "ml")])).
Proof.
  assert (H : search_papers Sample.twice "ml" 5 Sample.stored_world
              = (Return ["2401.00001v1"; "2402.00002v1"; "2401.00001v1"],
                 (search_papers Sample.twice "ml" 5 Sample.stored_world).2))
    by (vm_compute; reflexivity).
  assert (Hn : ∀ members,
             files Sample.stored_world !! store_path "ml"
             = Some (File (Json (JObject members))) →
             NoDup members.*1).
  { intros members Hm.
    assert (Hs : files Sample.stored_world !! store_path "ml"
                 = Some (File (Json (JObject Sample.stored_members))))
      by (vm_compute; reflexivity).
    rewrite Hs in Hm. injection Hm as <-.
    apply NoDup_cons. split; [| apply NoDup_singleton].
    by intros [=]%list_elem_of_singleton. }
  split; [exact H |]. split; [exact Hn |].
  exact (search_papers_twice Sample.twice "ml" 5 Sample.stored_world _ _ H Hn).
Defined.

(** ** The directory of a topic *)

Lemma str_map_map f g s : Str.map f (Str.map g s) = Str.map (λ c, f (g c)) s.
Proof. induction s as [| c s IH]; simpl; [done | by rewrite IH]. Qed.

Lemma str_map_ext f g s : (∀ c, f c = g c) → Str.map f s = Str.map g s.
Proof. intros H. induction s as [| c s IH]; simpl; [done | by rewrite H, IH]. Qed.

Lemma topic_dir_map topic :
  topic_dir topic
  = Str.map (λ c, if Ascii.eqb (Str.lower_char c) " " then "_"%char
                  else Str.lower_char c) topic.
Proof. unfold topic_dir, Str.replace, Str.lower. apply str_map_map. Qed.

(** X7: for a topic of ASCII characters, deriving the directory name is
    idempotent, so the topic and its own directory name (["Machine
    Learning"] and ["machine_learning"]) share one store file. *)
Theorem topic_dir_idempotent topic :
  Str.isascii topic = true →
  topic_dir (topic_dir topic) = topic_dir topic
  ∧ store_path (topic_dir topic) = store_path topic.
Proof.
  intros _.
  assert (H : topic_dir (topic_dir topic) = topic_dir topic).
  { rewrite !topic_dir_map, str_map_map. apply str_map_ext.
    intros c. by destruct c as [[] [] [] [] [] [] [] []]. }
  split; [done |]. unfold store_path, topic_path. by rewrite H.
Qed.

Lemma topic_dir_idempotent_witness :
  Str.isascii "Machine Learning" = true
  ∧ topic_dir (topic_dir "Machine Learning") = topic_dir "Machine Learning"
  ∧ store_path (topic_dir "Machine Learning") = store_path "Machine Learning".
Proof.
  split; [reflexivity |].
  apply (topic_dir_idempotent "Machine Learning"). reflexivity.
Defined.

Lemma startswith_nil s : Str.startswith s EmptyString = true.
Proof. by destruct s. Qed.

(** X8: the directory of a topic lies under [PAPER_DIR] unless the topic
    begins with a separator; then [os.path.join] drops [PAPER_DIR] and the
    directory is the absolute path the topic spells. *)
Theorem topic_path_shape topic :
  topic_path topic
  = if Str.startswith topic "/" then topic_dir topic
    else "papers/" +:+ topic_dir topic.
Proof.
  destruct topic as [| c topic]; [done |].
  unfold topic_path, topic_dir, Path.join, Str.replace, Str.lower.
  destruct c as [[] [] [] [] [] [] [] []];
    cbn [Str.map Str.startswith]; rewrite !startswith_nil; reflexivity.
Qed.

(** ** [extract_info]: what it finds *)
















(** ** [extract_text_paper]: the output file *)

(** The run on a document whose pages all yield text. *)
Lemma extract_text_paper_readable_run paper_path w decodes texts :
  files w !! paper_path = Some (File (Pdf decodes (PageText <$> texts))) →
  extract_text_paper paper_path w =
  match files w !! output_path paper_path with
  | Some Dir =>
      (Raise IsADirectoryError,
       World (files w) (stdout w ++ [ExtractingText paper_path (length texts)]))
  | _ =>
      (Return (Some (output_path paper_path)),
       World (<[output_path paper_path := File (Text (contributions texts))]> (files w))
             (stdout w ++ [ExtractingText paper_path (length texts);
                           ExtractionComplete (output_path paper_path)]))
  end.
Proof.
  intros Hfile. unfold extract_text_paper. py_unfold. unfold os.is_file.
  rewrite Hfile. simpl. rewrite Hfile. simpl.
  rewrite extract_pages_all, text_of_pages_texts. simpl.
  fold (output_path paper_path).
  change (EmptyString +:+ contributions texts) with (contributions texts).
  rewrite length_fmap.
  destruct (files w !! output_path paper_path) as [[] |]; simpl;
    by rewrite <- ?app_assoc.
Qed.

(** What a call does to the table of files, whatever its outcome. *)
Lemma extract_text_paper_files paper_path w :
  files (extract_text_paper paper_path w).2 = files w
  ∨ ∃ text,
      files (extract_text_paper paper_path w).2
      = <[output_path paper_path := File (Text text)]> (files w).
Proof.
  unfold extract_text_paper. py_unfold. unfold os.is_file.
  destruct (files w !! paper_path) as [[data |] |] eqn:Hfile; simpl; try by left.
  rewrite Hfile.
  destruct data as [value | decodes pages | text | decodes e]; simpl;
    try (by left); try (destruct (bool_decide _); by left).
  rewrite extract_pages_all.
  destruct (text_of_pages pages _); simpl; [| destruct (bool_decide _); by left].
  fold (output_path paper_path).
  destruct (files w !! output_path paper_path) as [[] |]; simpl;
    (by left) || (right; by eexists).
Qed.

(** X12: whatever the path and however the call ends, no path other than
    the output path holds anything else after the call than before. *)
Theorem extract_text_paper_frame paper_path w q :
  q ≠ output_path paper_path →
  files (extract_text_paper paper_path w).2 !! q = files w !! q.
Proof.
  intros Hq. destruct (extract_text_paper_files paper_path w) as [-> | [text ->]];
    [done | by rewrite lookup_insert_ne].
Qed.

Lemma extract_text_paper_frame_witness :
  "docs/notes.pdf" ≠ output_path "docs/paper.pdf"
  ∧ files (extract_text_paper "docs/paper.pdf" Sample.desk).2 !! "docs/notes.pdf"
    = files Sample.desk !! "docs/notes.pdf".
Proof.
  assert (H : "docs/notes.pdf" ≠ output_path "docs/paper.pdf") by (vm_compute; discriminate).
  split; [exact H |].
  exact (extract_text_paper_frame "docs/paper.pdf" Sample.desk "docs/notes.pdf" H).
Defined.

(** X13: when the output path is a directory, the call on a readable
    document does not return [None]: opening the output raises
    [IsADirectoryError], which the handler for [PdfReadError] lets
    through; nothing has been written. *)
Theorem extract_text_paper_output_is_directory paper_path w decodes texts :
  files w !! paper_path = Some (File (Pdf decodes (PageText <$> texts))) →
  os.is_dir (files w) (output_path paper_path) = true →
  extract_text_paper paper_path w
  = (Raise IsADirectoryError,
     World (files w) (stdout w ++ [ExtractingText paper_path (length texts)])).
Proof.
  intros Hfile Hdir. rewrite (extract_text_paper_readable_run _ _ decodes texts) by done.
  unfold os.is_dir in Hdir.
  by destruct (files w !! output_path paper_path) as [[] |].
Qed.

Lemma extract_text_paper_output_is_directory_witness :
  files Sample.shelf !! "docs/paper.pdf"
  = Some (File (Pdf false (PageText <$> ["Page 1"; "Page 2"])))
  ∧ os.is_dir (files Sample.shelf) (output_path "docs/paper.pdf") = true
  ∧ extract_text_paper "docs/paper.pdf" Sample.shelf
    = (Raise IsADirectoryError,
       World (files Sample.shelf)
             (stdout Sample.shelf
              ++ [ExtractingText "docs/paper.pdf" (length ["Page 1"; "Page 2"])])).
Proof.
  split; [vm_compute; reflexivity |]. split; [vm_compute; reflexivity |].
  apply (extract_text_paper_output_is_directory "docs/paper.pdf" Sample.shelf false
           ["Page 1"; "Page 2"]);
    vm_compute; reflexivity.
Defined.






(** ** [os.path.splitext] and the output path *)

Lemma take_drop n p : Str.take n p +:+ Str.drop n p = p.
Proof.
  revert p. induction n as [| n IH]; intros [| a p]; try done.
  change (String a (Str.take n p +:+ Str.drop n p) = String a p). by rewrite IH.
Qed.

Lemma take_app s t : Str.take (String.length s) (s +:+ t) = s.
Proof.
  induction s as [| a s IH]; [by destruct t |].
  change (String a (Str.take (String.length s) (s +:+ t)) = String a s).
  by rewrite IH.
Qed.

Lemma drop_app s t : Str.drop (String.length s) (s +:+ t) = t.
Proof. induction s as [| a s IH]; [by destruct t | done]. Qed.

Lemma rfind_lt s c i : Str.rfind s c = Some i → i < String.length s.
Proof.
  revert i. induction s as [| a s IH]; intros i; simpl; [done |].
  destruct (Str.rfind s c) as [j |].
  - intros [= <-]. specialize (IH j eq_refl). lia.
  - destruct (Ascii.eqb a c); intros [= <-]. lia.
Qed.

Lemma rfind_app_Some s t c i :
  Str.rfind t c = Some i → Str.rfind (s +:+ t) c = Some (String.length s + i).
Proof.
  intros Ht. induction s as [| a s IH]; [done |].
  change (Str.rfind (String a (s +:+ t)) c = Some (S (String.length s + i))).
  simpl. by rewrite IH.
Qed.

Lemma rfind_app_None s t c :
  Str.rfind t c = None → Str.rfind (s +:+ t) c = Str.rfind s c.
Proof.
  intros Ht. induction s as [| a s IH]; [done |].
  change (Str.rfind (String a (s +:+ t)) c = Str.rfind (String a s) c).
  simpl. by rewrite IH.
Qed.

(** After the last occurrence of [c] there is no [c]. *)
Lemma rfind_drop s c i :
  Str.rfind s c = Some i →
  ∃ rest, Str.drop i s = String c rest ∧ Str.rfind rest c = None.
Proof.
  revert i. induction s as [| a s IH]; intros i; simpl; [done |].
  destruct (Str.rfind s c) as [j |] eqn:Hs.
  - intros [= <-]. apply (IH j eq_refl).
  - destruct (Ascii.eqb_spec a c) as [-> | _]; intros [= <-]. by exists s.
Qed.

Lemma rfind_drop_None s c n :
  (∀ j, Str.rfind s c = Some j → j < n) → Str.rfind (Str.drop n s) c = None.
Proof.
  revert n. induction s as [| a s IH]; intros [| n] Hn; simpl; try done.
  - destruct (Str.rfind (String a s) c) as [j |] eqn:Hj; [| done].
    specialize (Hn j eq_refl). lia.
  - apply IH. intros j Hj. simpl in Hn. rewrite Hj in Hn.
    specialize (Hn (S j) eq_refl). lia.
Qed.

Lemma splitext_join p : (Path.splitext p).1 +:+ (Path.splitext p).2 = p.
Proof.
  unfold Path.splitext. destruct (Str.rfind p Path.extsep) as [dotIndex |]; simpl.
  - destruct (_ && _); simpl; [apply take_drop | apply string_app_nil_r].
  - apply string_app_nil_r.
Qed.

(** X16: the two parts [os.path.splitext] returns put together are the
    path again, and the extension is empty or a period followed by
    characters among which there is neither a period nor a separator. *)
Theorem splitext_parts p :
  (Path.splitext p).1 +:+ (Path.splitext p).2 = p
  ∧ ((Path.splitext p).2 = EmptyString
     ∨ ∃ rest, (Path.splitext p).2 = String Path.extsep rest
               ∧ Str.rfind rest Path.extsep = None
               ∧ Str.rfind rest Path.sep = None).
Proof.
  unfold Path.splitext.
  destruct (Str.rfind p Path.extsep) as [dotIndex |] eqn:Hdot; simpl.
  2: { split; [apply string_app_nil_r | by left]. }
  destruct (_ && _) eqn:Hsplit; simpl.
  2: { split; [apply string_app_nil_r | by left]. }
  split; [apply take_drop |]. right.
  destruct (rfind_drop _ _ _ Hdot) as (rest & Hdrop & Hrest).
  exists rest. split_and!; [done | done |].
  apply andb_prop in Hsplit as [Hle%Nat.leb_le _].
  assert (Hsep : Str.rfind (Str.drop (S dotIndex) p) Path.sep = None).
  { apply rfind_drop_None. intros j Hj. rewrite Hj in Hle. lia. }
  assert (Hmore : Str.drop (S dotIndex) p = rest).
  { clear -Hdrop. revert p Hdrop.
    induction dotIndex as [| n IH]; intros [| a p]; simpl; try done.
    - by intros [= _ ->].
    - apply IH. }
  by rewrite Hmore in Hsep.
Qed.

Lemma has_stem_found s x rest filenameIndex dotIndex :
  filenameIndex ≤ String.length s → String.length s < dotIndex →
  x ≠ Path.extsep →
  Path.has_stem (s +:+ String x rest) filenameIndex dotIndex = true.
Proof.
  revert filenameIndex dotIndex.
  induction s as [| a s IH]; intros f [| d] Hf Hd Hx; simpl in *; try lia.
  - destruct f; [| lia]. by destruct (Ascii.eqb_spec x Path.extsep).
  - change (String a s +:+ String x rest) with (String a (s +:+ String x rest)).
    destruct f as [| f].
    + destruct (Ascii.eqb a Path.extsep); [| done]. apply IH; [lia | lia | done].
    + apply IH; [lia | lia | done].
Qed.

(** X17: for a path made of a stem that ends in a character other than a
    period or a separator, a period, and an extension without period or
    separator, the output path is the stem followed by [.txt]. *)
Theorem output_path_replaces_extension base c ext :
  c ≠ Path.extsep → c ≠ Path.sep →
  Str.rfind ext Path.extsep = None → Str.rfind ext Path.sep = None →
  output_path ((base +:+ String c EmptyString) +:+ String Path.extsep ext)
  = (base +:+ String c EmptyString) +:+ ".txt".
Proof.
  intros Hc1 Hc2 He1 He2. set (stem := base +:+ String c EmptyString).
  assert (Hdot : Str.rfind (stem +:+ String Path.extsep ext) Path.extsep
                 = Some (String.length stem)).
  { rewrite (rfind_app_Some stem _ _ 0); [f_equal; lia |]. simpl. by rewrite He1. }
  assert (Hsep : Str.rfind (stem +:+ String Path.extsep ext) Path.sep
                 = Str.rfind base Path.sep).
  { rewrite rfind_app_None by (simpl; by rewrite He2).
    subst stem. apply rfind_app_None. simpl.
    by destruct (Ascii.eqb_spec c Path.sep). }
  assert (Hlen : String.length stem = S (String.length base)).
  { subst stem. rewrite string_length_app. simpl. lia. }
  assert (Hfile : match Str.rfind base Path.sep with Some i => S i | None => 0 end
                  ≤ String.length base).
  { destruct (Str.rfind base Path.sep) as [i |] eqn:Hi; [| lia].
    apply rfind_lt in Hi. lia. }
  unfold output_path, Path.splitext. rewrite Hdot, Hsep.
  assert (Hle : (match Str.rfind base Path.sep with Some i => S i | None => 0 end
                 <=? String.length stem)%nat = true) by (apply Nat.leb_le; lia).
  rewrite Hle. simpl andb.
  assert (Hstem : Path.has_stem (stem +:+ String Path.extsep ext)
                    match Str.rfind base Path.sep with Some i => S i | None => 0 end
                    (String.length stem) = true).
  { subst stem. rewrite string_app_assoc.
    apply has_stem_found; [done | lia | done]. }
  rewrite Hstem. simpl. by rewrite take_app.
Qed.

Lemma output_path_replaces_extension_witness :
  "r"%char ≠ Path.extsep ∧ "r"%char ≠ Path.sep
  ∧ Str.rfind "pdf" Path.extsep = None ∧ Str.rfind "pdf" Path.sep = None
  ∧ output_path (("docs/v1.2/pape" +:+ String "r" EmptyString) +:+ String Path.extsep "pdf")
    = ("docs/v1.2/pape" +:+ String "r" EmptyString) +:+ ".txt".
Proof.
  assert (H1 : "r"%char ≠ Path.extsep) by discriminate.
  assert (H2 : "r"%char ≠ Path.sep) by discriminate.
  split; [exact H1 |]. split; [exact H2 |].
  split; [reflexivity |]. split; [reflexivity |].
  exact (output_path_replaces_extension "docs/v1.2/pape" "r" "pdf" H1 H2 eq_refl eq_refl).
Defined.

(** X18: a document whose own name bears the extension [.txt] is its own
    output: after the call the path holds the extracted text and the
    document is gone. *)
Theorem extract_text_paper_overwrites_source paper_path w decodes texts :
  files w !! paper_path = Some (File (Pdf decodes (PageText <$> texts))) →
  (Path.splitext paper_path).2 = ".txt" →
  (extract_text_paper paper_path w).1 = Return (Some paper_path)
  ∧ files (extract_text_paper paper_path w).2 !! paper_path
    = Some (File (Text (contributions texts))).
Proof.
  intros Hfile Hext.
  assert (Hout : output_path paper_path = paper_path).
  { unfold output_path. rewrite <- Hext. apply splitext_join. }
  rewrite (extract_text_paper_readable_run _ _ decodes texts) by done.
  rewrite Hout, Hfile. simpl. by rewrite lookup_insert_eq.
Qed.

Lemma extract_text_paper_overwrites_source_witness :
  files Sample.shelf !! "docs/draft.txt" = Some (File (Pdf true (PageText <$> ["Draft"])))
  ∧ (Path.splitext "docs/draft.txt").2 = ".txt"
  ∧ (extract_text_paper "docs/draft.txt" Sample.shelf).1 = Return (Some "docs/draft.txt")
  ∧ files (extract_text_paper "docs/draft.txt" Sample.shelf).2 !! "docs/draft.txt"
    = Some (File (Text (contributions ["Draft"]))).
Proof.
  split; [vm_compute; reflexivity |]. split; [reflexivity |].
  apply (extract_text_paper_overwrites_source "docs/draft.txt" Sample.shelf true
           ["Draft"]);
    [vm_compute; reflexivity | reflexivity].
Defined.
